(** * The certificate signer controller
    (pkg/controller/signer/signer-controller.go)

    A shallow embedding of [ReconcileCSR.Reconcile] and of its helpers
    [isCertificateRequestApproved], [getCertApprovalCondition],
    [signerFailure] and [updateCSRStatusConditions].

    One reconciliation pass talks to the API server, to the status
    manager and to the PEM / x509 helpers of the package.  The answers
    of the API server are the fields of the record [ReconcileCSR], the
    helpers are the methods of the class [X509]; the calls the pass
    issues are recorded, in order, in the trace of a [World], next to the
    degraded conditions of the status manager and the request object the
    local pointer [csr] refers to. *)

From stdpp Require Import base option strings list gmap.
From Stdlib.Strings Require Import Byte.

Local Open Scope string_scope.

(** ** Data model *)

(** Go's [[]byte]. *)
Abbreviation bytes := (list byte).

(** Go's [error]: what [apierrors.IsNotFound] answers on it, and the
    text [%v] prints. *)
Record error := mkError { IsNotFound : bool; Error : string }.

(** A pair [(value, err)] returned by a fallible call. *)
Inductive result (A : Type) :=
| Ok (a : A)
| Err (e : error).
Arguments Ok {A} a.
Arguments Err {A} e.

(** [csrv1.RequestConditionType] is a string type. *)
Definition RequestConditionType := string.
Definition CertificateApproved : RequestConditionType := "Approved".
Definition CertificateDenied : RequestConditionType := "Denied".
Definition CertificateFailed : RequestConditionType := "Failed".

(** [csrv1.CertificateSigningRequestCondition]; the field [Type] is
    spelled [Type_] and the field [Status] is spelled [CondStatus]. *)
Record CertificateSigningRequestCondition := mkCondition {
  Type_ : RequestConditionType;
  CondStatus : string;
  Reason : string;
  Message : string
}.

Record CertificateSigningRequestSpec := mkSpec {
  Request : bytes;
  SignerName : string
}.

Record CertificateSigningRequestStatus := mkStatus {
  Conditions : list CertificateSigningRequestCondition;
  Certificate : bytes
}.

Record CertificateSigningRequest := mkCSR {
  ObjectName : string;
  Spec : CertificateSigningRequestSpec;
  Status : CertificateSigningRequestStatus
}.

(** The zero value [csrv1.CertificateSigningRequest{}]. *)
Definition emptyCSR : CertificateSigningRequest :=
  mkCSR EmptyString (mkSpec [] EmptyString) (mkStatus [] []).

(** [corev1.Secret], of which only [Data] is read. *)
Record Secret := mkSecret { Data : gmap string bytes }.

(** Indexing a Go map of byte slices: an absent key reads as nil. *)
Definition index (m : gmap string bytes) (k : string) : bytes :=
  default [] (m !! k).

Record NamespacedName := mkNamespacedName {
  Namespace : string;
  Name : string
}.

(** [reconcile.Request] embeds its [NamespacedName]. *)
Record ReconcileRequest := mkRequest { Key : NamespacedName }.

(** [reconcile.Result]; the controller only ever returns its zero value. *)
Record ReconcileResult := mkResult { Requeue : bool }.
Definition Result0 : ReconcileResult := mkResult false.

Definition signerName : string := "network.openshift.io/signer".

(** In-place updates of the request object. *)
Definition appendCondition (c : CertificateSigningRequestCondition)
    (csr : CertificateSigningRequest) : CertificateSigningRequest :=
  mkCSR (ObjectName csr) (Spec csr)
        (mkStatus (Conditions (Status csr) ++ [c]) (Certificate (Status csr))).

Definition setCertificate (b : bytes)
    (csr : CertificateSigningRequest) : CertificateSigningRequest :=
  mkCSR (ObjectName csr) (Spec csr) (mkStatus (Conditions (Status csr)) b).

(** ** Approval policy *)

(** One iteration of the loop of [getCertApprovalCondition]. *)
Definition approvalStep (acc : bool * bool)
    (c : CertificateSigningRequestCondition) : bool * bool :=
  let approved := if decide (Type_ c = CertificateApproved) then true else acc.1 in
  let denied := if decide (Type_ c = CertificateDenied) then true else acc.2 in
  (approved, denied).

Definition getCertApprovalCondition
    (status : CertificateSigningRequestStatus) : bool * bool :=
  foldl approvalStep (false, false) (Conditions status).

Definition isCertificateRequestApproved (csr : CertificateSigningRequest) : bool :=
  let '(approved, denied) := getCertApprovalCondition (Status csr) in
  approved && negb denied.

(** The approval decision in the words of the specification: Denied as
    soon as one condition of type Denied is recorded, otherwise Approved
    if one of type Approved is, otherwise Undecided. *)
Inductive Decision := Undecided | Approved | Denied.

Definition hasType (t : RequestConditionType)
    (cs : list CertificateSigningRequestCondition) : bool :=
  existsb (fun c => bool_decide (Type_ c = t)) cs.

Definition decidePolicy (cs : list CertificateSigningRequestCondition) : Decision :=
  if hasType CertificateDenied cs then Denied
  else if hasType CertificateApproved cs then Approved
  else Undecided.

(** ** Collaborators *)

(** The helpers of the package that live in other files
    ([decodeCertificateRequest], [decodeCertificate], [decodePrivateKey],
    [newCertificateTemplate], [signCSR]) and the encoder of library-go
    ([crypto.EncodeCertificates]) are parameters, together with the x509
    types they work on.  [signedCert] is one certificate, so the encoder
    takes one; it returns the pair of Go as it is, since [Reconcile]
    assigns its first component to the certificate field before it looks
    at the error. *)
Class X509 := {
  x509CertificateRequest : Type;
  x509Certificate : Type;
  PrivateKey : Type;
  PublicKeyT : Type;
  PublicKey : x509CertificateRequest → PublicKeyT;
  decodeCertificateRequest : bytes → result x509CertificateRequest;
  decodeCertificate : bytes → result x509Certificate;
  decodePrivateKey : bytes → result PrivateKey;
  newCertificateTemplate : x509CertificateRequest → x509Certificate;
  signCSR : x509Certificate → PublicKeyT → x509Certificate → PrivateKey
            → result x509Certificate;
  EncodeCertificates : x509Certificate → bytes * option error
}.

(** [ReconcileCSR]: what the API server answers through [client] (reads
    and ordinary status writes) and [clientset] (the approval
    subresource).  [UpdateApproval] returns the pair of Go as it is: an
    object and an error.  The write-back of [Status().Update] into its
    argument is left out: no path reads [csr] after that call. *)
Record ReconcileCSR := {
  client_Get : NamespacedName → result CertificateSigningRequest;
  client_GetSecret : NamespacedName → result Secret;
  client_Status_Update : CertificateSigningRequest → option error;
  clientset_UpdateApproval :
    string → CertificateSigningRequest → CertificateSigningRequest * option error
}.

(** Modelled from the spec: the status manager (pkg/controller/statusmanager)
    is the aggregate health reporter with the two operations
    [setDegraded(component, reason, message)] and
    [setNotDegraded(component)]; it keeps, per component, the degraded
    condition last reported, if any. *)
Definition StatusLevel := string.
Definition CertificateSigner : StatusLevel := "CertificateSigner".

(** ** Effects *)

(** The calls a pass issues, in the order it issues them. *)
Inductive Event :=
| EvGet (key : NamespacedName)
| EvUpdateApproval (name : string) (csr : CertificateSigningRequest)
| EvGetSecret (key : NamespacedName)
| EvDecodeCertificateRequest (b : bytes)
| EvDecodeCertificate (b : bytes)
| EvDecodePrivateKey (b : bytes)
| EvSignCSR
| EvEncodeCertificates
| EvStatusUpdate (csr : CertificateSigningRequest)
| EvSetDegraded (level : StatusLevel) (reason message : string)
| EvSetNotDegraded (level : StatusLevel)
| EvLog (line : string).

(** [csrObj] is the object the local pointer [csr] of [Reconcile] refers
    to; [signerFailure] and [updateCSRStatusConditions] receive that
    pointer and update the object in place.  [failing] is the state of the
    status manager. *)
Record World := mkWorld {
  csrObj : CertificateSigningRequest;
  trace : list Event;
  failing : gmap StatusLevel (string * string)
}.

Definition M (A : Type) : Type := World → A * World.

Global Instance M_ret : MRet M := λ A a w, (a, w).
Global Instance M_bind : MBind M := λ A B f m w, let '(a, w') := m w in f a w'.

Definition emit (e : Event) : M unit :=
  λ w, (tt, mkWorld (csrObj w) (trace w ++ [e]) (failing w)).

Definition load : M CertificateSigningRequest := λ w, (csrObj w, w).

Definition store (csr : CertificateSigningRequest) : M unit :=
  λ w, (tt, mkWorld csr (trace w) (failing w)).

Definition logPrint (line : string) : M unit := emit (EvLog line).

(** Modelled from the spec: [setDegraded(component, reason, message)] of
    the aggregate health reporter records the degraded condition of the
    component, replacing an earlier one. *)
Definition SetDegraded (level : StatusLevel) (reason message : string) : M unit :=
  λ w, (tt, mkWorld (csrObj w)
                    (trace w ++ [EvSetDegraded level reason message])
                    (<[level := (reason, message)]> (failing w))).

(** Modelled from the spec: [setNotDegraded(component)] of the aggregate
    health reporter clears the degraded condition of the component. *)
Definition SetNotDegraded (level : StatusLevel) : M unit :=
  λ w, (tt, mkWorld (csrObj w)
                    (trace w ++ [EvSetNotDegraded level])
                    (delete level (failing w))).

(** Which events write: to the API server or to the status manager. *)
Definition isWrite (e : Event) : bool :=
  match e with
  | EvUpdateApproval _ _ | EvStatusUpdate _
  | EvSetDegraded _ _ _ | EvSetNotDegraded _ => true
  | _ => false
  end.

(** Which events belong to signing: CA load, PEM decoding, signing,
    encoding and the status update. *)
Definition isSigningStep (e : Event) : bool :=
  match e with
  | EvGetSecret _ | EvDecodeCertificateRequest _ | EvDecodeCertificate _
  | EvDecodePrivateKey _ | EvSignCSR | EvEncodeCertificates
  | EvStatusUpdate _ => true
  | _ => false
  end.

(** ** The controller *)

(** The condition [updateCSRStatusConditions] appends. *)
Definition failedCondition (reason message : string) :
    CertificateSigningRequestCondition :=
  mkCondition CertificateFailed "True" reason message.

Section controller.
Context `{X509}.
Variable r : ReconcileCSR.

(** [r.client.Get(ctx, key, csr)]: fills the object on success. *)
Definition Get (key : NamespacedName) : M (option error) :=
  emit (EvGet key);;
  match client_Get r key with
  | Ok obj => store obj;; mret None
  | Err err => mret (Some err)
  end.

Definition GetSecret (key : NamespacedName) : M (result Secret) :=
  emit (EvGetSecret key);; mret (client_GetSecret r key).

(** [r.client.Status().Update(ctx, csr)]. *)
Definition Status_Update : M (option error) :=
  csr ← load;
  emit (EvStatusUpdate csr);;
  mret (client_Status_Update r csr).

(** [csr, err = ...UpdateApproval(ctx, name, csr, ...)]: the pointer is
    rebound to the returned object. *)
Definition UpdateApproval (name : string) : M (option error) :=
  csr ← load;
  emit (EvUpdateApproval name csr);;
  let '(obj, err) := clientset_UpdateApproval r name csr in
  store obj;; mret err.

Definition updateCSRStatusConditions (reason message : string) : M unit :=
  csr ← load;
  store (appendCondition (mkCondition CertificateFailed "True" reason message) csr);;
  err ← Status_Update;
  match err with
  | Some err =>
      logPrint ("Could not update CSR status: " +:+ Error err);;
      SetDegraded CertificateSigner "UpdateFailure"
                  ("Unable to update csr: " +:+ Error err)
  | None => mret tt
  end.

Definition signerFailure (reason message : string) : M unit :=
  logPrint (reason +:+ ": " +:+ message);;
  updateCSRStatusConditions reason message;;
  SetDegraded CertificateSigner reason message.

Definition approvedCondition : CertificateSigningRequestCondition :=
  mkCondition CertificateApproved "True" "AutoApproved"
              ("Automatically approved by " +:+ signerName).

Definition caSecretKey : NamespacedName :=
  mkNamespacedName "openshift-ovn-kubernetes" "signer-ca".

Definition Reconcile (request : ReconcileRequest) : M (ReconcileResult * option error) :=
  store emptyCSR;;
  err ← Get (Key request);
  match err with
  | Some err =>
      if IsNotFound err then mret (Result0, None)
      else logPrint (Error err);; mret (Result0, Some err)
  | None =>
  csr ← load;
  if decide (SignerName (Spec csr) ≠ signerName) then mret (Result0, None)
  else if decide (length (Certificate (Status csr)) ≠ 0) then mret (Result0, None)
  else if negb (isCertificateRequestApproved csr) then
    store (appendCondition approvedCondition csr);;
    err ← UpdateApproval (Name (Key request));
    match err with
    | Some err =>
        logPrint ("Unable to approve certificate for " +:+ Name (Key request)
                  +:+ " and signer " +:+ signerName +:+ ": " +:+ Error err);;
        mret (Result0, Some err)
    | None => mret (Result0, None)
    end
  else
  (* From this point we are dealing with an approved CSR *)
  caSecret ← GetSecret caSecretKey;
  match caSecret with
  | Err err =>
      signerFailure "CAFailure"
        ("Could not get CA certificate and key: " +:+ Error err);;
      mret (Result0, Some err)
  | Ok caSecret =>
  csr ← load;
  emit (EvDecodeCertificateRequest (Request (Spec csr)));;
  match decodeCertificateRequest (Request (Spec csr)) with
  | Err err =>
      updateCSRStatusConditions "CSRDecodeFailure"
        ("Could not decode Certificate Request: " +:+ Error err);;
      mret (Result0, None)
  | Ok certReq =>
  emit (EvDecodeCertificate (index (Data caSecret) "tls.crt"));;
  match decodeCertificate (index (Data caSecret) "tls.crt") with
  | Err err =>
      signerFailure "CorruptCACert"
        ("Unable to decode CA certificate for " +:+ signerName +:+ ": "
         +:+ Error err);;
      mret (Result0, None)
  | Ok caCert =>
  emit (EvDecodePrivateKey (index (Data caSecret) "tls.key"));;
  match decodePrivateKey (index (Data caSecret) "tls.key") with
  | Err err =>
      signerFailure "CorruptCAKey"
        ("Unable to decode CA private key for " +:+ signerName +:+ ": "
         +:+ Error err);;
      mret (Result0, None)
  | Ok caKey =>
  emit EvSignCSR;;
  match signCSR (newCertificateTemplate certReq) (PublicKey certReq) caCert caKey with
  | Err err =>
      signerFailure "SigningFailure"
        ("Unable to sign certificate for " +:+ Name (Key request)
         +:+ " and signer " +:+ signerName +:+ ": " +:+ Error err);;
      mret (Result0, None)
  | Ok signedCert =>
  emit EvEncodeCertificates;;
  let '(pem, err) := EncodeCertificates signedCert in
  csr ← load;
  store (setCertificate pem csr);;
  match err with
  | Some err =>
      signerFailure "EncodeFailure"
        ("Could not encode certificate: " +:+ Error err);;
      mret (Result0, None)
  | None =>
  err ← Status_Update;
  match err with
  | Some err =>
      logPrint ("Unable to update signed certificate for " +:+ Name (Key request)
                +:+ " and signer " +:+ signerName +:+ ": " +:+ Error err);;
      mret (Result0, Some err)
  | None =>
      logPrint ("Certificate signed, issued and approved for "
                +:+ Name (Key request) +:+ " by " +:+ signerName);;
      SetNotDegraded CertificateSigner;;
      mret (Result0, None)
  end end end end end end end end.
End controller.

(** ** Observing a pass *)

(** The events issued between two worlds of one run. *)
Definition issued (w w' : World) : list Event :=
  drop (length (trace w)) (trace w').

(** The message of the UpdateFailure report. *)
Definition updateFailureMessage (err : error) : string :=
  "Unable to update csr: " +:+ Error err.

(** What follows a status update of a failure condition that answered
    [err]: nothing when it went through, a log line and the escalation
    to the status manager when it did not. *)
Definition afterFailedUpdate (err : option error) : list Event :=
  match err with
  | Some err =>
      [EvLog ("Could not update CSR status: " +:+ Error err);
       EvSetDegraded CertificateSigner "UpdateFailure" (updateFailureMessage err)]
  | None => []
  end.

(** The state of the status manager after that. *)
Definition escalate (err : option error)
    (h : gmap StatusLevel (string * string)) : gmap StatusLevel (string * string) :=
  match err with
  | Some err => <[CertificateSigner := ("UpdateFailure", updateFailureMessage err)]> h
  | None => h
  end.

(** What the signing part of a pass may issue after the read of the CA
    secret, for the fetched request [csr]: no read of the request, no
    approval update, and status updates only of an object whose
    conditions are those of [csr], followed or not by one Failed
    condition. *)
Definition signingEvent (csr : CertificateSigningRequest) (e : Event) : Prop :=
  match e with
  | EvGet _ | EvGetSecret _ | EvUpdateApproval _ _ => False
  | EvStatusUpdate obj =>
      ∃ added,
        Conditions (Status obj) = (Conditions (Status csr) ++ added)%list
        ∧ (added = [] ∨ ∃ reason message, added = [failedCondition reason message])
  | _ => True
  end.

(** The object an event sends to the API server for writing. *)
Definition written (e : Event) : option CertificateSigningRequest :=
  match e with
  | EvUpdateApproval _ obj | EvStatusUpdate obj => Some obj
  | _ => None
  end.

(** The conditions the controller writes: status "True", and either type
    Approved with reason AutoApproved or type Failed. *)
Definition controllerCondition (c : CertificateSigningRequestCondition) : Prop :=
  CondStatus c = "True"
  ∧ ((Type_ c = CertificateApproved ∧ Reason c = "AutoApproved")
     ∨ Type_ c = CertificateFailed).

Definition isLog (e : Event) : Prop := ∃ line, e = EvLog line.

(** ** Scenarios

    A toy instance of the collaborators on which the controller can be
    run: PEM text is any non-empty byte string, decoding is the identity
    on it, signing prepends the first byte of the CA key to the
    template. *)
Module Scenarios.
Definition malformed : error := mkError false "malformed PEM".

Definition decodeToy (b : bytes) : result bytes :=
  match b with
  | [] => Err malformed
  | _ => Ok b
  end.

Definition toyX509 : X509 := {|
  x509CertificateRequest := bytes;
  x509Certificate := bytes;
  PrivateKey := bytes;
  PublicKeyT := bytes;
  PublicKey := λ req, req;
  decodeCertificateRequest := decodeToy;
  decodeCertificate := decodeToy;
  decodePrivateKey := decodeToy;
  newCertificateTemplate := λ req, req;
  signCSR := λ template _ _ caKey, Ok (take 1 caKey ++ template)%list;
  EncodeCertificates := λ cert, (cert, None)
|}.

Definition caSecret : Secret :=
  mkSecret (<["tls.crt" := [x43; x41]]> (<["tls.key" := [x4b]]> ∅)).

Definition unavailable : error := mkError false "connection refused".
Definition conflict : error := mkError false "conflict".

(** An API server that holds the one request [csr] and the CA secret
    and accepts every write. *)
Definition server (csr : CertificateSigningRequest) : ReconcileCSR := {|
  client_Get := λ _, Ok csr;
  client_GetSecret := λ _, Ok caSecret;
  client_Status_Update := λ _, None;
  clientset_UpdateApproval := λ _ obj, (obj, None)
|}.

(** The same server with the CA secret unreadable. *)
Definition serverNoCA (csr : CertificateSigningRequest) : ReconcileCSR := {|
  client_Get := λ _, Ok csr;
  client_GetSecret := λ _, Err unavailable;
  client_Status_Update := λ _, None;
  clientset_UpdateApproval := λ _ obj, (obj, None)
|}.

(** The same server refusing every status update. *)
Definition serverNoUpdate (csr : CertificateSigningRequest) : ReconcileCSR := {|
  client_Get := λ _, Ok csr;
  client_GetSecret := λ _, Ok caSecret;
  client_Status_Update := λ _, Some conflict;
  clientset_UpdateApproval := λ _ obj, (obj, None)
|}.

(** The same server refusing the approval update. *)
Definition serverNoApproval (csr : CertificateSigningRequest) : ReconcileCSR := {|
  client_Get := λ _, Ok csr;
  client_GetSecret := λ _, Ok caSecret;
  client_Status_Update := λ _, None;
  clientset_UpdateApproval := λ _ _, (emptyCSR, Some conflict)
|}.

(** Both faults at once. *)
Definition serverNoCANoUpdate (csr : CertificateSigningRequest) : ReconcileCSR := {|
  client_Get := λ _, Ok csr;
  client_GetSecret := λ _, Err unavailable;
  client_Status_Update := λ _, Some conflict;
  clientset_UpdateApproval := λ _ obj, (obj, None)
|}.

Definition req : ReconcileRequest := mkRequest (mkNamespacedName EmptyString "peer-1").

Definition cond (t : RequestConditionType) : CertificateSigningRequestCondition :=
  mkCondition t "True" "ByAdmin" EmptyString.

Definition mk (signer : string) (request : bytes)
    (conds : list CertificateSigningRequestCondition) (cert : bytes) :=
  mkCSR "peer-1" (mkSpec request signer) (mkStatus conds cert).

Definition csrOther := mk "kubernetes.io/kubelet-serving" [x52] [] [].
Definition csrIssued := mk signerName [x52] [cond CertificateApproved] [x43].
Definition csrNew := mk signerName [x52] [] [].
Definition csrDenied := mk signerName [x52] [cond CertificateDenied] [].
Definition csrApproved := mk signerName [x52] [cond CertificateApproved] [].
Definition csrBadPEM := mk signerName [] [cond CertificateApproved] [].

Definition csrBoth :=
  mk signerName [x52] [cond CertificateApproved; cond CertificateDenied] [].

Definition w0 : World := mkWorld emptyCSR [] ∅.
Definition wDegraded : World :=
  mkWorld emptyCSR [] {[ CertificateSigner := ("CAFailure", "no CA") ]}.

(** The objects of the status updates that record a CA failure on
    [csrApproved] and a decode failure on [csrBadPEM]. *)
Definition caFailureMessage : string :=
  "Could not get CA certificate and key: connection refused".

Definition caFailureSent : CertificateSigningRequest :=
  appendCondition (failedCondition "CAFailure" caFailureMessage) csrApproved.

Definition decodeFailureSent : CertificateSigningRequest :=
  appendCondition
    (failedCondition "CSRDecodeFailure"
                     "Could not decode Certificate Request: malformed PEM")
    csrBadPEM.

(** The world of a pass on [csrBadPEM] right after the fetch, and the
    world after a pass on [csrApproved] with the CA secret unreadable. *)
Definition wFetched : World := mkWorld csrBadPEM [EvGet (Key req)] ∅.

Definition caFailureRecorded : World :=
  mkWorld caFailureSent
    [EvGet (Key req); EvGetSecret caSecretKey;
     EvLog ("CAFailure: " +:+ caFailureMessage);
     EvStatusUpdate caFailureSent;
     EvSetDegraded CertificateSigner "CAFailure" caFailureMessage]
    {[ CertificateSigner := ("CAFailure", caFailureMessage) ]}.

(** The object of the approval update for [csrNew], and the world
    after a pass whose approval update was refused. *)
Definition approvalSent : CertificateSigningRequest :=
  appendCondition approvedCondition csrNew.

Definition refusedApproval : World :=
  mkWorld emptyCSR
    [EvGet (Key req); EvUpdateApproval "peer-1" approvalSent;
     EvLog ("Unable to approve certificate for peer-1 and signer "
            +:+ signerName +:+ ": conflict")]
    (failing wDegraded).
End Scenarios.

(** ** The paths of a pass

    [Reconcile] as a relation: one rule per [return] of the Go function,
    in the order of the source.  A rule gives the result, the object
    [csr] points to at the return, the events of the pass and the state
    of the status manager, from the state [h] the pass starts in. *)

(** The log line after a refused approval update. *)
Definition approvalLog (request : ReconcileRequest) (err : option error) : list Event :=
  match err with
  | Some err =>
      [EvLog ("Unable to approve certificate for " +:+ Name (Key request)
              +:+ " and signer " +:+ signerName +:+ ": " +:+ Error err)]
  | None => []
  end.

(** The events of one [signerFailure] that sends [obj]. *)
Definition failureEvents (r : ReconcileCSR) (reason message : string)
    (obj : CertificateSigningRequest) : list Event :=
  (EvLog (reason +:+ ": " +:+ message)
   :: EvStatusUpdate obj
   :: afterFailedUpdate (client_Status_Update r obj)
   ++ [EvSetDegraded CertificateSigner reason message])%list.

Section paths.
Context `{X509}.
Variable r : ReconcileCSR.
Variable request : ReconcileRequest.
Variable h : gmap StatusLevel (string * string).

(** A fetched request that passes the three gates towards signing. *)
Definition signable (csr : CertificateSigningRequest) : Prop :=
  client_Get r (Key request) = Ok csr
  ∧ SignerName (Spec csr) = signerName
  ∧ Certificate (Status csr) = []
  ∧ isCertificateRequestApproved csr = true.

Inductive Pass :
  ReconcileResult * option error → CertificateSigningRequest → list Event
  → gmap StatusLevel (string * string) → Prop :=
| PassNotFound gerr :
    client_Get r (Key request) = Err gerr →
    IsNotFound gerr = true →
    Pass (Result0, None) emptyCSR [EvGet (Key request)] h
| PassFetchError gerr :
    client_Get r (Key request) = Err gerr →
    IsNotFound gerr = false →
    Pass (Result0, Some gerr) emptyCSR
         [EvGet (Key request); EvLog (Error gerr)] h
| PassOtherSigner csr :
    client_Get r (Key request) = Ok csr →
    SignerName (Spec csr) ≠ signerName →
    Pass (Result0, None) csr [EvGet (Key request)] h
| PassIssued csr :
    client_Get r (Key request) = Ok csr →
    SignerName (Spec csr) = signerName →
    Certificate (Status csr) ≠ [] →
    Pass (Result0, None) csr [EvGet (Key request)] h
| PassApproval csr obj answer :
    client_Get r (Key request) = Ok csr →
    SignerName (Spec csr) = signerName →
    Certificate (Status csr) = [] →
    isCertificateRequestApproved csr = false →
    obj = appendCondition approvedCondition csr →
    answer = clientset_UpdateApproval r (Name (Key request)) obj →
    Pass (Result0, answer.2) answer.1
         (EvGet (Key request) :: EvUpdateApproval (Name (Key request)) obj
          :: approvalLog request answer.2) h
| PassCAFailure csr err message obj :
    signable csr →
    client_GetSecret r caSecretKey = Err err →
    message = "Could not get CA certificate and key: " +:+ Error err →
    obj = appendCondition (failedCondition "CAFailure" message) csr →
    Pass (Result0, Some err) obj
         (EvGet (Key request) :: EvGetSecret caSecretKey
          :: failureEvents r "CAFailure" message obj)
         (<[CertificateSigner := ("CAFailure", message)]> h)
| PassCSRDecodeFailure csr caSecret err message obj :
    signable csr →
    client_GetSecret r caSecretKey = Ok caSecret →
    decodeCertificateRequest (Request (Spec csr)) = Err err →
    message = "Could not decode Certificate Request: " +:+ Error err →
    obj = appendCondition (failedCondition "CSRDecodeFailure" message) csr →
    Pass (Result0, None) obj
         (EvGet (Key request) :: EvGetSecret caSecretKey
          :: EvDecodeCertificateRequest (Request (Spec csr))
          :: EvStatusUpdate obj
          :: afterFailedUpdate (client_Status_Update r obj))
         (escalate (client_Status_Update r obj) h)
| PassCorruptCACert csr caSecret certReq err message obj :
    signable csr →
    client_GetSecret r caSecretKey = Ok caSecret →
    decodeCertificateRequest (Request (Spec csr)) = Ok certReq →
    decodeCertificate (index (Data caSecret) "tls.crt") = Err err →
    message = "Unable to decode CA certificate for " +:+ signerName +:+ ": "
              +:+ Error err →
    obj = appendCondition (failedCondition "CorruptCACert" message) csr →
    Pass (Result0, None) obj
         (EvGet (Key request) :: EvGetSecret caSecretKey
          :: EvDecodeCertificateRequest (Request (Spec csr))
          :: EvDecodeCertificate (index (Data caSecret) "tls.crt")
          :: failureEvents r "CorruptCACert" message obj)
         (<[CertificateSigner := ("CorruptCACert", message)]> h)
| PassCorruptCAKey csr caSecret certReq caCert err message obj :
    signable csr →
    client_GetSecret r caSecretKey = Ok caSecret →
    decodeCertificateRequest (Request (Spec csr)) = Ok certReq →
    decodeCertificate (index (Data caSecret) "tls.crt") = Ok caCert →
    decodePrivateKey (index (Data caSecret) "tls.key") = Err err →
    message = "Unable to decode CA private key for " +:+ signerName +:+ ": "
              +:+ Error err →
    obj = appendCondition (failedCondition "CorruptCAKey" message) csr →
    Pass (Result0, None) obj
         (EvGet (Key request) :: EvGetSecret caSecretKey
          :: EvDecodeCertificateRequest (Request (Spec csr))
          :: EvDecodeCertificate (index (Data caSecret) "tls.crt")
          :: EvDecodePrivateKey (index (Data caSecret) "tls.key")
          :: failureEvents r "CorruptCAKey" message obj)
         (<[CertificateSigner := ("CorruptCAKey", message)]> h)
| PassSigningFailure csr caSecret certReq caCert caKey err message obj :
    signable csr →
    client_GetSecret r caSecretKey = Ok caSecret →
    decodeCertificateRequest (Request (Spec csr)) = Ok certReq →
    decodeCertificate (index (Data caSecret) "tls.crt") = Ok caCert →
    decodePrivateKey (index (Data caSecret) "tls.key") = Ok caKey →
    signCSR (newCertificateTemplate certReq) (PublicKey certReq) caCert caKey
      = Err err →
    message = "Unable to sign certificate for " +:+ Name (Key request)
              +:+ " and signer " +:+ signerName +:+ ": " +:+ Error err →
    obj = appendCondition (failedCondition "SigningFailure" message) csr →
    Pass (Result0, None) obj
         (EvGet (Key request) :: EvGetSecret caSecretKey
          :: EvDecodeCertificateRequest (Request (Spec csr))
          :: EvDecodeCertificate (index (Data caSecret) "tls.crt")
          :: EvDecodePrivateKey (index (Data caSecret) "tls.key")
          :: EvSignCSR
          :: failureEvents r "SigningFailure" message obj)
         (<[CertificateSigner := ("SigningFailure", message)]> h)
| PassEncodeFailure csr caSecret certReq caCert caKey signedCert pem err
    message obj :
    signable csr →
    client_GetSecret r caSecretKey = Ok caSecret →
    decodeCertificateRequest (Request (Spec csr)) = Ok certReq →
    decodeCertificate (index (Data caSecret) "tls.crt") = Ok caCert →
    decodePrivateKey (index (Data caSecret) "tls.key") = Ok caKey →
    signCSR (newCertificateTemplate certReq) (PublicKey certReq) caCert caKey
      = Ok signedCert →
    EncodeCertificates signedCert = (pem, Some err) →
    message = "Could not encode certificate: " +:+ Error err →
    obj = appendCondition (failedCondition "EncodeFailure" message)
            (setCertificate pem csr) →
    Pass (Result0, None) obj
         (EvGet (Key request) :: EvGetSecret caSecretKey
          :: EvDecodeCertificateRequest (Request (Spec csr))
          :: EvDecodeCertificate (index (Data caSecret) "tls.crt")
          :: EvDecodePrivateKey (index (Data caSecret) "tls.key")
          :: EvSignCSR :: EvEncodeCertificates
          :: failureEvents r "EncodeFailure" message obj)
         (<[CertificateSigner := ("EncodeFailure", message)]> h)
| PassUpdateError csr caSecret certReq caCert caKey signedCert pem uerr obj :
    signable csr →
    client_GetSecret r caSecretKey = Ok caSecret →
    decodeCertificateRequest (Request (Spec csr)) = Ok certReq →
    decodeCertificate (index (Data caSecret) "tls.crt") = Ok caCert →
    decodePrivateKey (index (Data caSecret) "tls.key") = Ok caKey →
    signCSR (newCertificateTemplate certReq) (PublicKey certReq) caCert caKey
      = Ok signedCert →
    EncodeCertificates signedCert = (pem, None) →
    obj = setCertificate pem csr →
    client_Status_Update r obj = Some uerr →
    Pass (Result0, Some uerr) obj
         [EvGet (Key request); EvGetSecret caSecretKey;
          EvDecodeCertificateRequest (Request (Spec csr));
          EvDecodeCertificate (index (Data caSecret) "tls.crt");
          EvDecodePrivateKey (index (Data caSecret) "tls.key");
          EvSignCSR; EvEncodeCertificates; EvStatusUpdate obj;
          EvLog ("Unable to update signed certificate for " +:+ Name (Key request)
                 +:+ " and signer " +:+ signerName +:+ ": " +:+ Error uerr)]
         h
| PassSigned csr caSecret certReq caCert caKey signedCert pem obj :
    signable csr →
    client_GetSecret r caSecretKey = Ok caSecret →
    decodeCertificateRequest (Request (Spec csr)) = Ok certReq →
    decodeCertificate (index (Data caSecret) "tls.crt") = Ok caCert →
    decodePrivateKey (index (Data caSecret) "tls.key") = Ok caKey →
    signCSR (newCertificateTemplate certReq) (PublicKey certReq) caCert caKey
      = Ok signedCert →
    EncodeCertificates signedCert = (pem, None) →
    obj = setCertificate pem csr →
    client_Status_Update r obj = None →
    Pass (Result0, None) obj
         [EvGet (Key request); EvGetSecret caSecretKey;
          EvDecodeCertificateRequest (Request (Spec csr));
          EvDecodeCertificate (index (Data caSecret) "tls.crt");
          EvDecodePrivateKey (index (Data caSecret) "tls.key");
          EvSignCSR; EvEncodeCertificates; EvStatusUpdate obj;
          EvLog ("Certificate signed, issued and approved for "
                 +:+ Name (Key request) +:+ " by " +:+ signerName);
          EvSetNotDegraded CertificateSigner]
         (delete CertificateSigner h).
End paths.

(** The objects a list of events sends to the API server. *)
Definition sent (evs : list Event) : list CertificateSigningRequest :=
  omap written evs.

(** What a pass may read after its first event: the request never
    again, and no secret but the CA secret. *)
Definition laterRead (e : Event) : Prop :=
  match e with
  | EvGet _ => False
  | EvGetSecret key => key = caSecretKey
  | _ => True
  end.

(** A call to the status manager, if [e] is one, names [level]. *)
Definition healthCallOn (level : StatusLevel) (e : Event) : Prop :=
  match e with
  | EvSetDegraded l _ _ | EvSetNotDegraded l => l = level
  | _ => True
  end.

(** ** Start-up: [Add], [newReconciler], [add]

    The manager hands out its client, answers the construction of the
    clientset from its config and the construction of the controller, and
    the controller answers the registration of the watch.  The calls are
    recorded in the order they are made. *)

Record Client := {
  Client_Get : NamespacedName → result CertificateSigningRequest;
  Client_GetSecret : NamespacedName → result Secret;
  Client_Status_Update : CertificateSigningRequest → option error
}.

Record Clientset := {
  Clientset_UpdateApproval :
    string → CertificateSigningRequest → CertificateSigningRequest * option error
}.

Inductive StartEvent :=
| EvNewForConfig
| EvControllerNew (name : string)
| EvWatch (kind : string).

Section startup.
Variable Controller : Type.

Record Manager := {
  GetClient : Client;
  NewForConfig : result Clientset;
  controller_New : string → ReconcileCSR → result Controller;
  Watch : Controller → string → option error
}.

(** [&ReconcileCSR{client: mgr.GetClient(), ..., clientset: clientset}];
    the status manager the reconciler also keeps is the [failing] state of
    the world. *)
Definition mkReconcileCSR (client : Client) (clientset : Clientset) : ReconcileCSR := {|
  client_Get := Client_Get client;
  client_GetSecret := Client_GetSecret client;
  client_Status_Update := Client_Status_Update client;
  clientset_UpdateApproval := Clientset_UpdateApproval clientset
|}.

Definition newReconciler (mgr : Manager) : result ReconcileCSR * list StartEvent :=
  match NewForConfig mgr with
  | Err err => (Err err, [EvNewForConfig])
  | Ok clientset => (Ok (mkReconcileCSR (GetClient mgr) clientset), [EvNewForConfig])
  end.

Definition add (mgr : Manager) (r : ReconcileCSR) : option error * list StartEvent :=
  match controller_New mgr "signer-controller" r with
  | Err err => (Some err, [EvControllerNew "signer-controller"])
  | Ok c =>
      match Watch mgr c "CertificateSigningRequest" with
      | Some err =>
          (Some err, [EvControllerNew "signer-controller";
                      EvWatch "CertificateSigningRequest"])
      | None =>
          (None, [EvControllerNew "signer-controller";
                  EvWatch "CertificateSigningRequest"])
      end
  end.

Definition Add (mgr : Manager) : option error * list StartEvent :=
  match newReconciler mgr with
  | (Err err, evs) => (Some err, evs)
  | (Ok reconciler, evs) =>
      let '(err, evs') := add mgr reconciler in (err, (evs ++ evs')%list)
  end.
End startup.

(** ** More scenarios: faults of the collaborators *)
Module Faults.
Import Scenarios.

Definition gone : error := mkError true "not found".
Definition badKey : error := mkError false "incompatible key".
Definition badDER : error := mkError false "bad DER".

(** The toy helpers with a signer and an encoder of choice. *)
Definition toy (sign : result bytes) (encode : bytes → bytes * option error) : X509 := {|
  x509CertificateRequest := bytes;
  x509Certificate := bytes;
  PrivateKey := bytes;
  PublicKeyT := bytes;
  PublicKey := λ req, req;
  decodeCertificateRequest := decodeToy;
  decodeCertificate := decodeToy;
  decodePrivateKey := decodeToy;
  newCertificateTemplate := λ req, req;
  signCSR := λ _ _ _ _, sign;
  EncodeCertificates := encode
|}.

Definition toyNoSign : X509 := toy (Err badKey) (λ cert, (cert, None)).
Definition toyNoEncode : X509 := toy (Ok [x53]) (λ cert, ([x3f], Some badDER)).

(** An API server whose answer to the read of the request and whose CA
    secret are given. *)
Definition serverOf (get : result CertificateSigningRequest) (ca : Secret) :
    ReconcileCSR := {|
  client_Get := λ _, get;
  client_GetSecret := λ _, Ok ca;
  client_Status_Update := λ _, None;
  clientset_UpdateApproval := λ _ obj, (obj, None)
|}.

Definition secretNoCert : Secret := mkSecret {[ "tls.key" := [x4b] ]}.
Definition secretNoKey : Secret := mkSecret {[ "tls.crt" := [x43; x41] ]}.

(** A world in which another component is reported degraded. *)
Definition wOther : World :=
  mkWorld emptyCSR [EvLog "earlier"] {[ "PodDeployment" := ("RolloutHung", "stuck") ]}.

Definition signedPEM : bytes := [x4b; x52].

(** Two statuses with the same conditions, in another order and with a
    repetition. *)
Definition statusA : CertificateSigningRequestStatus :=
  mkStatus [cond CertificateApproved; cond CertificateDenied;
            cond CertificateApproved] [].
Definition statusB : CertificateSigningRequestStatus :=
  mkStatus [cond CertificateDenied; cond CertificateApproved] [x43].

(** Servers that hold [csrApproved] and a CA secret with an entry
    missing, and the objects the failure paths send for [csrApproved]. *)
Definition rNoCert : ReconcileCSR := serverOf (Ok csrApproved) secretNoCert.
Definition rNoKey : ReconcileCSR := serverOf (Ok csrApproved) secretNoKey.

Definition corruptCertMessage : string :=
  "Unable to decode CA certificate for network.openshift.io/signer: malformed PEM".
Definition corruptCertSent : CertificateSigningRequest :=
  appendCondition (failedCondition "CorruptCACert" corruptCertMessage) csrApproved.

Definition corruptKeyMessage : string :=
  "Unable to decode CA private key for network.openshift.io/signer: malformed PEM".
Definition corruptKeySent : CertificateSigningRequest :=
  appendCondition (failedCondition "CorruptCAKey" corruptKeyMessage) csrApproved.

Definition signingMessage : string :=
  "Unable to sign certificate for peer-1 and signer network.openshift.io/signer: incompatible key".
Definition signingSent : CertificateSigningRequest :=
  appendCondition (failedCondition "SigningFailure" signingMessage) csrApproved.

Definition encodeMessage : string := "Could not encode certificate: bad DER".
Definition encodeSent : CertificateSigningRequest :=
  appendCondition (failedCondition "EncodeFailure" encodeMessage)
                  (setCertificate [x3f] csrApproved).

(** The world after a pass that issued the certificate for
    [csrApproved], started in [wDegraded]. *)
Definition issuedWorld : World :=
  mkWorld (setCertificate signedPEM csrApproved)
    [EvGet (Key req); EvGetSecret caSecretKey;
     EvDecodeCertificateRequest [x52];
     EvDecodeCertificate [x43; x41];
     EvDecodePrivateKey [x4b];
     EvSignCSR; EvEncodeCertificates;
     EvStatusUpdate (setCertificate signedPEM csrApproved);
     EvLog ("Certificate signed, issued and approved for peer-1 by "
            +:+ signerName);
     EvSetNotDegraded CertificateSigner]
    (delete CertificateSigner (failing wDegraded)).

(** A manager whose clientset cannot be built, and one that works. *)
Definition toyClient : Client := {|
  Client_Get := λ _, Ok csrNew;
  Client_GetSecret := λ _, Ok caSecret;
  Client_Status_Update := λ _, None
|}.

Definition toyClientset : Clientset := {|
  Clientset_UpdateApproval := λ _ obj, (obj, None)
|}.

Definition mgrNoClientset : Manager unit := {|
  GetClient := toyClient;
  NewForConfig := Err unavailable;
  controller_New := λ _ _, Ok tt;
  Watch := λ _ _, None
|}.

Definition mgrOk : Manager unit := {|
  GetClient := toyClient;
  NewForConfig := Ok toyClientset;
  controller_New := λ _ _, Ok tt;
  Watch := λ _ _, None
|}.
End Faults.

(** ** Proof automation *)

(** Unfold one run of the controller down to the answers of the
    collaborators. *)
Ltac run :=
  unfold Reconcile, signerFailure, updateCSRStatusConditions, Get, GetSecret,
    Status_Update, UpdateApproval, SetDegraded, SetNotDegraded, logPrint,
    emit, load, store, mbind, mret, M_bind, M_ret;
  cbn [csrObj trace failing fst snd].

(** The same for [Reconcile] alone, leaving [signerFailure] and
    [updateCSRStatusConditions] folded. *)
Ltac run_top :=
  unfold Reconcile, Get, GetSecret, Status_Update, UpdateApproval,
    SetNotDegraded, logPrint, emit, load, store, mbind, mret, M_bind, M_ret;
  cbn [csrObj trace failing fst snd].

(** Pass the three gates of [Reconcile] with a fetched request of this
    signer, without certificate, classified as approved. *)
Ltac approved_gate Hget Hsigner Hcert Happroved :=
  run_top; rewrite Hget; cbn [csrObj trace failing];
  rewrite Hcert; cbn [length];
  (destruct (decide (_ ≠ signerName)) as [Hn|_]; [by destruct Hn|]);
  (destruct (decide (0 ≠ 0)) as [Hn|_]; [by destruct Hn|]);
  rewrite Happroved; cbn [negb csrObj trace failing].

(** Spell out the events of a path: unfold the event lists of the
    failure paths and split on the answers they depend on. *)
Ltac explicit_events :=
  unfold failureEvents, approvalLog, escalate, afterFailedUpdate in *;
  repeat (case_match; cbn [app fst snd] in * ).

(** Split a membership in an explicit list into its cases. *)
Ltac split_elem_of Hin :=
  rewrite ?elem_of_cons, ?elem_of_nil in Hin; destruct_or? Hin;
  try contradiction; subst.

(** Identify the request a path fetched with the one [Hget] names. *)
Ltac same_fetch Hget :=
  repeat match goal with
         | Hg : client_Get _ _ = _ |- _ =>
             tryif constr_eq Hg Hget then fail
             else (rewrite Hget in Hg; simplify_eq)
         end.

(** ** Facts about the approval policy *)

Section approval.
Implicit Types (cs : list CertificateSigningRequestCondition) (a d : bool).

Lemma approvalStep_fold cs a d :
  foldl approvalStep (a, d) cs
  = (a || hasType CertificateApproved cs, d || hasType CertificateDenied cs).
Proof.
  revert a d. induction cs as [|c cs IH]; intros a d; simpl.
  - by rewrite !orb_false_r.
  - unfold approvalStep at 2; simpl. rewrite IH. f_equal.
    + destruct (decide (Type_ c = CertificateApproved)) as [e|n].
      * by rewrite (bool_decide_eq_true_2 _ e), orb_true_r.
      * by rewrite (bool_decide_eq_false_2 _ n).
    + destruct (decide (Type_ c = CertificateDenied)) as [e|n].
      * by rewrite (bool_decide_eq_true_2 _ e), orb_true_r.
      * by rewrite (bool_decide_eq_false_2 _ n).
Qed.

Lemma getCertApprovalCondition_spec st :
  getCertApprovalCondition st
  = (hasType CertificateApproved (Conditions st),
     hasType CertificateDenied (Conditions st)).
Proof. unfold getCertApprovalCondition. by rewrite approvalStep_fold. Qed.

Lemma hasType_true t cs :
  hasType t cs = true ↔ ∃ c, c ∈ cs ∧ Type_ c = t.
Proof.
  unfold hasType. rewrite existsb_exists. split.
  - intros (c & Hin & Hc). exists c. split; [by apply list_elem_of_In|].
    by apply bool_decide_eq_true in Hc.
  - intros (c & Hin & Hc). exists c. split; [by apply list_elem_of_In|].
    by apply bool_decide_eq_true.
Qed.

Lemma hasType_app t cs1 cs2 :
  hasType t (cs1 ++ cs2) = hasType t cs1 || hasType t cs2.
Proof. apply existsb_app. Qed.

Lemma isCertificateRequestApproved_spec csr :
  isCertificateRequestApproved csr
  = hasType CertificateApproved (Conditions (Status csr))
    && negb (hasType CertificateDenied (Conditions (Status csr))).
Proof.
  unfold isCertificateRequestApproved.
  by rewrite getCertApprovalCondition_spec.
Qed.

(** The code's classification agrees with the decision of the
    specification. *)
Lemma isCertificateRequestApproved_decidePolicy csr :
  isCertificateRequestApproved csr = true
  ↔ decidePolicy (Conditions (Status csr)) = Approved.
Proof.
  rewrite isCertificateRequestApproved_spec. unfold decidePolicy.
  destruct (hasType CertificateDenied _), (hasType CertificateApproved _);
    simpl; split; congruence.
Qed.
End approval.

(** C2: a condition list that holds a condition of type Approved and one
    of type Denied is classified as denied: [getCertApprovalCondition]
    reports both flags, [isCertificateRequestApproved] answers false, and
    the decision of the specification is Denied.  Only the types of the
    conditions are consulted, neither their number nor their status. *)
Theorem denial_precedence (csr : CertificateSigningRequest)
    (ca cd : CertificateSigningRequestCondition) :
  ca ∈ Conditions (Status csr) → Type_ ca = CertificateApproved →
  cd ∈ Conditions (Status csr) → Type_ cd = CertificateDenied →
  getCertApprovalCondition (Status csr) = (true, true)
  ∧ isCertificateRequestApproved csr = false
  ∧ decidePolicy (Conditions (Status csr)) = Denied.
Proof.
  intros Ha Hta Hd Htd.
  assert (HA : hasType CertificateApproved (Conditions (Status csr)) = true)
    by (apply hasType_true; eauto).
  assert (HD : hasType CertificateDenied (Conditions (Status csr)) = true)
    by (apply hasType_true; eauto).
  rewrite isCertificateRequestApproved_spec, getCertApprovalCondition_spec.
  unfold decidePolicy. by rewrite HA, HD.
Qed.

(** ** Running the controller *)

Lemma issued_app w w' evs : trace w' = (trace w ++ evs)%list → issued w w' = evs.
Proof. unfold issued. intros ->. by rewrite drop_app_length. Qed.

Section runs.
Context `{X509}.
Variable r : ReconcileCSR.
Implicit Types (w : World) (csr : CertificateSigningRequest)
         (request : ReconcileRequest).

Lemma updateCSRStatusConditions_run reason message w :
  let obj := appendCondition (failedCondition reason message) (csrObj w) in
  updateCSRStatusConditions r reason message w
  = (tt, mkWorld obj
           (trace w ++ EvStatusUpdate obj
              :: afterFailedUpdate (client_Status_Update r obj))%list
           (escalate (client_Status_Update r obj) (failing w))).
Proof.
  run. fold (failedCondition reason message).
  destruct (client_Status_Update r _) as [err|]; cbn [csrObj trace failing];
    [|done].
  by rewrite <- !app_assoc.
Qed.

Lemma signerFailure_run reason message w :
  let obj := appendCondition (failedCondition reason message) (csrObj w) in
  signerFailure r reason message w
  = (tt, mkWorld obj
           (trace w ++ EvLog (reason +:+ ": " +:+ message)
              :: EvStatusUpdate obj
              :: afterFailedUpdate (client_Status_Update r obj)
              ++ [EvSetDegraded CertificateSigner reason message])%list
           (<[CertificateSigner := (reason, message)]> (failing w))).
Proof.
  run. fold (failedCondition reason message).
  destruct (client_Status_Update r _) as [err|]; cbn [csrObj trace failing escalate].
  - rewrite <- !app_assoc. by rewrite insert_insert_eq.
  - by rewrite <- !app_assoc.
Qed.

(** C3: a fetched request that names another signer is left alone: the
    pass returns no error, the request object is as fetched (no
    condition appended, no certificate set), the only call issued is the
    read of the request (no approval update, no status update, no call
    to the status manager), and the health state is unchanged. *)
Theorem other_signer_no_writes request w csr :
  client_Get r (Key request) = Ok csr →
  SignerName (Spec csr) ≠ signerName →
  ∃ w', Reconcile r request w = (Result0, None, w')
    ∧ csrObj w' = csr
    ∧ trace w' = (trace w ++ [EvGet (Key request)])%list
    ∧ filter (λ e, isWrite e = true) (issued w w') = []
    ∧ failing w' = failing w.
Proof.
  intros Hget Hne. run. rewrite Hget. cbn [csrObj trace failing].
  destruct (decide (SignerName (Spec csr) ≠ signerName)); [|done].
  eexists; split; [reflexivity|]. cbn [csrObj trace failing].
  split_and!; try done. by rewrite (issued_app _ _ [EvGet (Key request)]).
Qed.

(** C4: a fetched request that already carries a certificate is left
    alone, whatever its signer name and conditions: no error, the
    object as fetched, no call but the read of the request, health
    state unchanged. *)
Theorem issued_request_no_writes request w csr :
  client_Get r (Key request) = Ok csr →
  Certificate (Status csr) ≠ [] →
  ∃ w', Reconcile r request w = (Result0, None, w')
    ∧ csrObj w' = csr
    ∧ trace w' = (trace w ++ [EvGet (Key request)])%list
    ∧ filter (λ e, isWrite e = true) (issued w w') = []
    ∧ failing w' = failing w.
Proof.
  intros Hget Hne. run. rewrite Hget. cbn [csrObj trace failing].
  assert (length (Certificate (Status csr)) ≠ 0)
    by (by destruct (Certificate (Status csr))).
  destruct (decide (SignerName (Spec csr) ≠ signerName));
    [|destruct (decide (length (Certificate (Status csr)) ≠ 0)); [|done]];
    (eexists; split; [reflexivity|]; cbn [csrObj trace failing];
     split_and!; try done; by rewrite (issued_app _ _ [EvGet (Key request)])).
Qed.

(** C7: for an approved request of this signer without certificate,
    when the CA secret cannot be read the pass appends a Failed
    condition with reason CAFailure (the conditions of the request are
    then the fetched ones followed by it) and sends it in a status update,
    then reports the CertificateSigner component degraded with reason
    CAFailure, which is the health state the pass ends in, and returns
    the error of the read. *)
Theorem ca_failure_degrades request w csr err :
  client_Get r (Key request) = Ok csr →
  SignerName (Spec csr) = signerName →
  Certificate (Status csr) = [] →
  isCertificateRequestApproved csr = true →
  client_GetSecret r caSecretKey = Err err →
  let message := "Could not get CA certificate and key: " +:+ Error err in
  let obj := appendCondition (failedCondition "CAFailure" message) csr in
  ∃ w', Reconcile r request w = (Result0, Some err, w')
    ∧ csrObj w' = obj
    ∧ Conditions (Status (csrObj w'))
      = (Conditions (Status csr)
         ++ [mkCondition "Failed" "True" "CAFailure" message])%list
    ∧ trace w' = (trace w ++ [EvGet (Key request); EvGetSecret caSecretKey;
                             EvLog ("CAFailure: " +:+ message);
                             EvStatusUpdate obj]
                  ++ afterFailedUpdate (client_Status_Update r obj)
                  ++ [EvSetDegraded CertificateSigner "CAFailure" message])%list
    ∧ failing w' !! CertificateSigner = Some ("CAFailure", message).
Proof.
  intros Hget Hsigner Hcert Happroved Hca message obj.
  approved_gate Hget Hsigner Hcert Happroved.
  rewrite Hca, signerFailure_run. cbn [csrObj trace failing].
  eexists; split; [reflexivity|]. cbn [csrObj trace failing].
  split_and!; [done|done| |by rewrite lookup_insert_eq].
  by rewrite <- !app_assoc.
Qed.

(** C8, amended: for an approved request of this signer without
    certificate and with a readable CA secret, when the request PEM
    does not decode the pass appends a Failed condition with reason
    CSRDecodeFailure (the conditions of the request are then the fetched
    ones followed by it), sends it in a status update and returns no
    error.
    The health state is untouched when that status update goes through;
    when it fails, the CertificateSigner component is reported degraded
    with reason UpdateFailure. *)
Theorem decode_failure_recorded request w csr caSecret err :
  client_Get r (Key request) = Ok csr →
  SignerName (Spec csr) = signerName →
  Certificate (Status csr) = [] →
  isCertificateRequestApproved csr = true →
  client_GetSecret r caSecretKey = Ok caSecret →
  decodeCertificateRequest (Request (Spec csr)) = Err err →
  let message := "Could not decode Certificate Request: " +:+ Error err in
  let obj := appendCondition (failedCondition "CSRDecodeFailure" message) csr in
  ∃ w', Reconcile r request w = (Result0, None, w')
    ∧ csrObj w' = obj
    ∧ Conditions (Status (csrObj w'))
      = (Conditions (Status csr)
         ++ [mkCondition "Failed" "True" "CSRDecodeFailure" message])%list
    ∧ trace w' = (trace w ++ [EvGet (Key request); EvGetSecret caSecretKey;
                             EvDecodeCertificateRequest (Request (Spec csr));
                             EvStatusUpdate obj]
                  ++ afterFailedUpdate (client_Status_Update r obj))%list
    ∧ match client_Status_Update r obj with
      | None => failing w' = failing w
      | Some uerr =>
          failing w'
          = <[CertificateSigner := ("UpdateFailure", updateFailureMessage uerr)]>
              (failing w)
      end.
Proof.
  intros Hget Hsigner Hcert Happroved Hca Hdec message obj.
  approved_gate Hget Hsigner Hcert Happroved.
  rewrite Hca. cbn [csrObj trace failing]. rewrite Hdec.
  rewrite updateCSRStatusConditions_run. cbn [csrObj trace failing].
  eexists; split; [reflexivity|]. cbn [csrObj trace failing].
  split_and!; [done|done|by rewrite <- !app_assoc|].
  fold message obj. by destruct (client_Status_Update r obj).
Qed.

(** C6: for an approved request of this signer without certificate,
    when the CA secret is read, the request and the CA material decode,
    signing succeeds, the encoder returns a PEM text without error
    (non-empty, as the encoding of a certificate is), and the status
    update goes through, the pass sets the certificate field to that
    PEM text, sends the object in one status update, reports the
    CertificateSigner component not degraded, and returns no error. *)
Theorem issuance_success request w csr caSecret certReq caCert caKey
    signedCert pem :
  client_Get r (Key request) = Ok csr →
  SignerName (Spec csr) = signerName →
  Certificate (Status csr) = [] →
  isCertificateRequestApproved csr = true →
  client_GetSecret r caSecretKey = Ok caSecret →
  decodeCertificateRequest (Request (Spec csr)) = Ok certReq →
  decodeCertificate (index (Data caSecret) "tls.crt") = Ok caCert →
  decodePrivateKey (index (Data caSecret) "tls.key") = Ok caKey →
  signCSR (newCertificateTemplate certReq) (PublicKey certReq) caCert caKey
    = Ok signedCert →
  EncodeCertificates signedCert = (pem, None) →
  pem ≠ [] →
  client_Status_Update r (setCertificate pem csr) = None →
  ∃ w', Reconcile r request w = (Result0, None, w')
    ∧ csrObj w' = setCertificate pem csr
    ∧ Certificate (Status (csrObj w')) = pem
    ∧ Certificate (Status (csrObj w')) ≠ []
    ∧ trace w' = (trace w ++ [EvGet (Key request); EvGetSecret caSecretKey;
                             EvDecodeCertificateRequest (Request (Spec csr));
                             EvDecodeCertificate (index (Data caSecret) "tls.crt");
                             EvDecodePrivateKey (index (Data caSecret) "tls.key");
                             EvSignCSR; EvEncodeCertificates;
                             EvStatusUpdate (setCertificate pem csr);
                             EvLog ("Certificate signed, issued and approved for "
                                    +:+ Name (Key request) +:+ " by " +:+ signerName);
                             EvSetNotDegraded CertificateSigner])%list
    ∧ failing w' = delete CertificateSigner (failing w)
    ∧ failing w' !! CertificateSigner = None.
Proof.
  intros Hget Hsigner Hcert Happroved Hca Hreq Hcrt Hkey Hsign Henc Hpem Hupd.
  approved_gate Hget Hsigner Hcert Happroved.
  rewrite Hca. cbn [csrObj trace failing]. rewrite Hreq, Hcrt, Hkey, Hsign, Henc.
  cbn [csrObj trace failing]. rewrite Hupd.
  eexists; split; [reflexivity|]. cbn [csrObj trace failing].
  split_and!; try done.
  - by rewrite <- !app_assoc.
  - by rewrite lookup_delete_eq.
Qed.

(** C9: whatever the reason and the message, when the status update
    that carries the appended Failed condition fails,
    [updateCSRStatusConditions] reports the CertificateSigner component
    degraded with reason UpdateFailure and leaves the health state so;
    [signerFailure], which goes through it, issues the same report
    and then its own, with the reason it was given. *)
Theorem update_failure_escalates reason message w uerr :
  let obj := appendCondition (failedCondition reason message) (csrObj w) in
  client_Status_Update r obj = Some uerr →
  (∃ w', updateCSRStatusConditions r reason message w = (tt, w')
     ∧ csrObj w' = obj
     ∧ trace w' = (trace w ++
                    [EvStatusUpdate obj;
                     EvLog ("Could not update CSR status: " +:+ Error uerr);
                     EvSetDegraded CertificateSigner "UpdateFailure"
                                   (updateFailureMessage uerr)])%list
     ∧ failing w' !! CertificateSigner
       = Some ("UpdateFailure", updateFailureMessage uerr))
  ∧ (∃ w', signerFailure r reason message w = (tt, w')
     ∧ csrObj w' = obj
     ∧ trace w' = (trace w ++
                    [EvLog (reason +:+ ": " +:+ message);
                     EvStatusUpdate obj;
                     EvLog ("Could not update CSR status: " +:+ Error uerr);
                     EvSetDegraded CertificateSigner "UpdateFailure"
                                   (updateFailureMessage uerr);
                     EvSetDegraded CertificateSigner reason message])%list
     ∧ failing w' !! CertificateSigner = Some (reason, message)).
Proof.
  intros obj Hupd. split.
  - rewrite updateCSRStatusConditions_run. fold obj. rewrite Hupd.
    eexists; split; [reflexivity|]. cbn [csrObj trace failing escalate].
    split_and!; try done. by rewrite lookup_insert_eq.
  - rewrite signerFailure_run. fold obj. rewrite Hupd.
    eexists; split; [reflexivity|]. cbn [csrObj trace failing].
    split_and!; try done. by rewrite lookup_insert_eq.
Qed.

(** *** The shape of a pass *)

(** Fetch failures and the two filters: the read of the request and at
    most one log line. *)
Lemma Reconcile_quiet request w res w' :
  Reconcile r request w = (res, w') →
  (∀ csr, client_Get r (Key request) = Ok csr →
          SignerName (Spec csr) ≠ signerName ∨ Certificate (Status csr) ≠ []) →
  ∃ logs, trace w' = (trace w ++ EvGet (Key request) :: logs)%list
    ∧ Forall isLog logs.
Proof.
  run. destruct (client_Get r (Key request)) as [csr|gerr];
    cbn [csrObj trace failing].
  - intros Hrun Hq. destruct (Hq csr eq_refl) as [Hn|Hn].
    + destruct (decide (SignerName (Spec csr) ≠ signerName)); [|done].
      simplify_eq. by exists [].
    + destruct (decide (SignerName (Spec csr) ≠ signerName)).
      { simplify_eq. by exists []. }
      destruct (decide (length (Certificate (Status csr)) ≠ 0)) as [|Hl].
      { simplify_eq. by exists []. }
      destruct Hl. by destruct (Certificate (Status csr)).
  - intros Hrun _. destruct (IsNotFound gerr); simplify_eq.
    + by exists [].
    + eexists [_]. cbn [trace]. rewrite <- app_assoc. split; [done|].
      repeat constructor. by eexists.
Qed.

(** The approval transition. *)
Lemma Reconcile_approval request w csr :
  client_Get r (Key request) = Ok csr →
  SignerName (Spec csr) = signerName →
  Certificate (Status csr) = [] →
  isCertificateRequestApproved csr = false →
  let obj := appendCondition approvedCondition csr in
  let answer := clientset_UpdateApproval r (Name (Key request)) obj in
  Reconcile r request w
  = (Result0, answer.2,
     mkWorld answer.1
       (trace w ++ EvGet (Key request)
          :: EvUpdateApproval (Name (Key request)) obj
          :: match answer.2 with
             | Some err =>
                 [EvLog ("Unable to approve certificate for "
                         +:+ Name (Key request) +:+ " and signer "
                         +:+ signerName +:+ ": " +:+ Error err)]
             | None => []
             end)%list
       (failing w)).
Proof.
  intros Hget Hsigner Hcert Happroved obj answer.
  approved_gate Hget Hsigner Hcert Happroved.
  fold obj. unfold answer.
  destruct (clientset_UpdateApproval r (Name (Key request)) obj) as [o [err|]];
    cbn [csrObj trace failing fst snd]; by rewrite <- !app_assoc.
Qed.

Lemma signingEvent_afterFailedUpdate csr err :
  Forall (signingEvent csr) (afterFailedUpdate err).
Proof. destruct err; repeat constructor. Qed.

(** The signing part. *)
Lemma Reconcile_signing request w res w' csr :
  client_Get r (Key request) = Ok csr →
  SignerName (Spec csr) = signerName →
  Certificate (Status csr) = [] →
  isCertificateRequestApproved csr = true →
  Reconcile r request w = (res, w') →
  ∃ evs, trace w' = (trace w ++ EvGet (Key request)
                       :: EvGetSecret caSecretKey :: evs)%list
    ∧ Forall (signingEvent csr) evs.
Proof.
  intros Hget Hsigner Hcert Happroved.
  approved_gate Hget Hsigner Hcert Happroved.
  repeat first
    [ progress (rewrite ?signerFailure_run, ?updateCSRStatusConditions_run;
                cbn [csrObj trace failing])
    | destruct (EncodeCertificates _) as [pem [err|]]
    | case_match ].
  all: intros ?; simplify_eq; cbn [trace]; eexists;
    (split; [rewrite <- !app_assoc; cbn [app]; reflexivity|]).
  all: repeat first [ apply Forall_nil_2 | apply Forall_cons_2
                    | apply Forall_app_2
                    | apply signingEvent_afterFailedUpdate ];
    cbn [signingEvent]; try done.
  all: first [ by (exists []; cbn; rewrite app_nil_r; eauto)
             | by (eexists [_]; cbn; eauto) ].
Qed.

(** In the signing part, a status update that carries one more condition
    than the fetched request records a failure; when it fails, the
    UpdateFailure report follows in the same pass. *)
Lemma Reconcile_signing_escalates request w res w' csr obj uerr :
  client_Get r (Key request) = Ok csr →
  SignerName (Spec csr) = signerName →
  Certificate (Status csr) = [] →
  isCertificateRequestApproved csr = true →
  Reconcile r request w = (res, w') →
  EvStatusUpdate obj ∈ issued w w' →
  Conditions (Status obj) ≠ Conditions (Status csr) →
  client_Status_Update r obj = Some uerr →
  EvSetDegraded CertificateSigner "UpdateFailure" (updateFailureMessage uerr)
  ∈ issued w w'.
Proof.
  intros Hget Hsigner Hcert Happroved.
  approved_gate Hget Hsigner Hcert Happroved.
  repeat first
    [ progress (rewrite ?signerFailure_run, ?updateCSRStatusConditions_run;
                cbn [csrObj trace failing])
    | destruct (EncodeCertificates _) as [pem [err|]]
    | case_match ].
  all: intros ?; simplify_eq; unfold issued; cbn [trace];
    rewrite <- !app_assoc, drop_app_length; cbn [app];
    intros Hin Hne Hupd.
  all: try match type of Hin with
           | context [afterFailedUpdate ?x] => destruct x eqn:?
           end; cbn [afterFailedUpdate app] in Hin |- *.
  all: rewrite !elem_of_cons, elem_of_nil in Hin; destruct_or!; simplify_eq.
  all: try done.
  all: rewrite !elem_of_cons; naive_solver.
Qed.

(** The trace only grows: [issued] is what a pass adds to it. *)
Lemma Reconcile_trace_extends request w res w' :
  Reconcile r request w = (res, w') →
  trace w' = (trace w ++ issued w w')%list.
Proof.
  intros Hrun.
  destruct (client_Get r (Key request)) as [csr|gerr] eqn:Hget.
  2: { destruct (Reconcile_quiet _ _ _ _ Hrun) as (logs & Ht & _);
         [by rewrite Hget|]. by rewrite (issued_app _ _ _ Ht). }
  destruct (decide (SignerName (Spec csr) = signerName)) as [Hsigner|Hsigner].
  2: { destruct (Reconcile_quiet _ _ _ _ Hrun) as (logs & Ht & _).
       - rewrite Hget. intros ? [= <-]. by left.
       - by rewrite (issued_app _ _ _ Ht). }
  destruct (Certificate (Status csr)) as [|b cert] eqn:Hcert.
  2: { destruct (Reconcile_quiet _ _ _ _ Hrun) as (logs & Ht & _).
       - rewrite Hget. intros ? [= <-]. right. by rewrite Hcert.
       - by rewrite (issued_app _ _ _ Ht). }
  destruct (isCertificateRequestApproved csr) eqn:Happroved.
  - destruct (Reconcile_signing _ _ _ _ _ Hget Hsigner Hcert Happroved Hrun)
      as (evs & Ht & _).
    by rewrite (issued_app _ _ _ Ht).
  - rewrite (Reconcile_approval _ _ _ Hget Hsigner Hcert Happroved) in Hrun.
    injection Hrun as <- <-. by erewrite issued_app.
Qed.

(** A pass that stops at the fetch or at one of the two filters sends
    no object to the API server. *)
Lemma quiet_sends_nothing request w res w' e :
  Reconcile r request w = (res, w') →
  (∀ csr, client_Get r (Key request) = Ok csr →
          SignerName (Spec csr) ≠ signerName ∨ Certificate (Status csr) ≠ []) →
  e ∈ issued w w' → written e = None.
Proof.
  intros Hrun Hq Hin.
  destruct (Reconcile_quiet _ _ _ _ Hrun Hq) as (logs & Ht & Hlogs).
  rewrite (issued_app _ _ _ Ht) in Hin.
  apply elem_of_cons in Hin as [->|Hin]; [done|].
  rewrite Forall_forall in Hlogs. by destruct (Hlogs _ Hin) as [line ->].
Qed.

(** C5: in every pass that issues the approval update, the update
    carries the fetched request with the Approved condition appended
    and no certificate, it comes right after the read of the request
    and is followed by log lines only: no read of the CA secret, no
    decoding, no signing, no encoding and no status update occur in the
    pass.  The pass returns the error of the approval update, nil or
    not, and leaves the health state unchanged. *)
Theorem approval_stops_pass request w res w' name obj :
  Reconcile r request w = (res, w') →
  EvUpdateApproval name obj ∈ issued w w' →
  ∃ csr logs,
    client_Get r (Key request) = Ok csr
    ∧ obj = appendCondition approvedCondition csr
    ∧ Certificate (Status obj) = []
    ∧ issued w w' = EvGet (Key request) :: EvUpdateApproval name obj :: logs
    ∧ Forall isLog logs
    ∧ Forall (λ e, isSigningStep e = false) (issued w w')
    ∧ res = (Result0, (clientset_UpdateApproval r name obj).2)
    ∧ csrObj w' = (clientset_UpdateApproval r name obj).1
    ∧ failing w' = failing w.
Proof.
  intros Hrun Hin.
  destruct (client_Get r (Key request)) as [csr|gerr] eqn:Hget.
  2: { by apply (quiet_sends_nothing _ _ _ _ _ Hrun) in Hin; [|rewrite Hget]. }
  destruct (decide (SignerName (Spec csr) = signerName)) as [Hsigner|Hsigner].
  2: { apply (quiet_sends_nothing _ _ _ _ _ Hrun) in Hin; [done|].
       rewrite Hget. intros ? [= <-]. by left. }
  destruct (Certificate (Status csr)) as [|b cert] eqn:Hcert.
  2: { apply (quiet_sends_nothing _ _ _ _ _ Hrun) in Hin; [done|].
       rewrite Hget. intros ? [= <-]. right. by rewrite Hcert. }
  destruct (isCertificateRequestApproved csr) eqn:Happroved.
  - destruct (Reconcile_signing _ _ _ _ _ Hget Hsigner Hcert Happroved Hrun)
      as (evs & Ht & Hevs).
    rewrite (issued_app _ _ _ Ht) in Hin.
    rewrite !elem_of_cons in Hin. destruct Hin as [?|[?|Hin]]; [done..|].
    rewrite Forall_forall in Hevs. destruct (Hevs _ Hin).
  - rewrite (Reconcile_approval _ _ _ Hget Hsigner Hcert Happroved) in Hrun.
    injection Hrun as <- <-.
    set (sent := appendCondition approvedCondition csr) in *.
    set (answer := clientset_UpdateApproval r (Name (Key request)) sent) in *.
    set (logs := match answer.2 with Some err => [EvLog _] | None => [] end) in *.
    assert (Hlogs : Forall isLog logs).
    { subst logs. destruct (answer.2); repeat constructor. by eexists. }
    rewrite (issued_app _ _ (EvGet (Key request)
               :: EvUpdateApproval (Name (Key request)) sent :: logs)) in * by done.
    assert (name = Name (Key request) ∧ obj = sent) as [-> ->].
    { rewrite !elem_of_cons in Hin. destruct Hin as [?|[?|Hin]]; [done| |].
      - by simplify_eq.
      - rewrite Forall_forall in Hlogs. by destruct (Hlogs _ Hin) as [? ?]. }
    exists csr, logs. split_and!; try done.
    repeat (apply Forall_cons_2; [done|]).
    eapply Forall_impl; [exact Hlogs|]. by intros ? [? ->].
Qed.

(** The escalation seen from [Reconcile]: in every pass, a status update
    that carries a condition more than the fetched request and fails is
    followed by the UpdateFailure report. *)
Lemma Reconcile_update_failure_escalates request w res w' csr obj uerr :
  Reconcile r request w = (res, w') →
  client_Get r (Key request) = Ok csr →
  EvStatusUpdate obj ∈ issued w w' →
  Conditions (Status obj) ≠ Conditions (Status csr) →
  client_Status_Update r obj = Some uerr →
  EvSetDegraded CertificateSigner "UpdateFailure" (updateFailureMessage uerr)
  ∈ issued w w'.
Proof.
  intros Hrun Hget Hin Hne Hupd.
  destruct (decide (SignerName (Spec csr) = signerName)) as [Hsigner|Hsigner].
  2: { apply (quiet_sends_nothing _ _ _ _ _ Hrun) in Hin; [done|].
       rewrite Hget. intros ? [= <-]. by left. }
  destruct (Certificate (Status csr)) as [|b cert] eqn:Hcert.
  2: { apply (quiet_sends_nothing _ _ _ _ _ Hrun) in Hin; [done|].
       rewrite Hget. intros ? [= <-]. right. by rewrite Hcert. }
  destruct (isCertificateRequestApproved csr) eqn:Happroved.
  - by eapply Reconcile_signing_escalates.
  - rewrite (Reconcile_approval _ _ _ Hget Hsigner Hcert Happroved) in Hrun.
    injection Hrun as <- <-. erewrite issued_app in Hin by done.
    rewrite !elem_of_cons in Hin. destruct Hin as [?|[?|Hin]]; [done..|].
    destruct (_.2) in Hin; [|by apply elem_of_nil in Hin].
    by apply list_elem_of_singleton in Hin.
Qed.

Lemma controllerCondition_approved : controllerCondition approvedCondition.
Proof. split; [done|by left]. Qed.

Lemma controllerCondition_failed reason message :
  controllerCondition (failedCondition reason message).
Proof. split; [done|by right]. Qed.

(** C10: in every pass, whatever object is sent to the API server, in
    the approval update or in a status update, carries the conditions
    of the fetched request followed by at most one more, and that one
    has status "True" and is of type Approved with reason AutoApproved
    or of type Failed: the controller appends no condition of type
    Denied. *)
Theorem appended_conditions request w res w' e obj :
  Reconcile r request w = (res, w') →
  e ∈ issued w w' →
  written e = Some obj →
  ∃ csr added,
    client_Get r (Key request) = Ok csr
    ∧ Conditions (Status obj) = (Conditions (Status csr) ++ added)%list
    ∧ (length added ≤ 1)%nat
    ∧ Forall controllerCondition added
    ∧ Forall (λ c, Type_ c ≠ CertificateDenied) added.
Proof.
  intros Hrun Hin Hobj.
  destruct (client_Get r (Key request)) as [csr|gerr] eqn:Hget.
  2: { apply (quiet_sends_nothing _ _ _ _ _ Hrun) in Hin; [congruence|].
       by rewrite Hget. }
  destruct (decide (SignerName (Spec csr) = signerName)) as [Hsigner|Hsigner].
  2: { apply (quiet_sends_nothing _ _ _ _ _ Hrun) in Hin; [congruence|].
       rewrite Hget. intros ? [= <-]. by left. }
  destruct (Certificate (Status csr)) as [|b cert] eqn:Hcert.
  2: { apply (quiet_sends_nothing _ _ _ _ _ Hrun) in Hin; [congruence|].
       rewrite Hget. intros ? [= <-]. right. by rewrite Hcert. }
  exists csr.
  destruct (isCertificateRequestApproved csr) eqn:Happroved.
  - destruct (Reconcile_signing _ _ _ _ _ Hget Hsigner Hcert Happroved Hrun)
      as (evs & Ht & Hevs).
    rewrite (issued_app _ _ _ Ht) in Hin.
    rewrite !elem_of_cons in Hin. destruct Hin as [->|[->|Hin]]; [done..|].
    rewrite Forall_forall in Hevs. specialize (Hevs _ Hin).
    destruct e; try done. cbn in Hobj, Hevs. simplify_eq.
    destruct Hevs as (added & Hc & [Ha|(reason & message & Ha)]);
      exists added; subst added; split_and!; try done; cbn; try lia;
      repeat apply Forall_cons_2; try apply Forall_nil_2;
      auto using controllerCondition_failed.
  - rewrite (Reconcile_approval _ _ _ Hget Hsigner Hcert Happroved) in Hrun.
    injection Hrun as <- <-.
    erewrite issued_app in Hin by done.
    rewrite !elem_of_cons in Hin. destruct Hin as [->|[->|Hin]]; [done| |].
    + cbn in Hobj. simplify_eq. exists [approvedCondition].
      split_and!; try done; cbn; try lia;
        repeat apply Forall_cons_2; try apply Forall_nil_2;
        auto using controllerCondition_approved.
    + destruct (_.2) in Hin; [|by apply elem_of_nil in Hin].
      by apply list_elem_of_singleton in Hin as ->.
Qed.

(** The approval gate does not tell a denied request from an undecided
    one: a fetched request of this signer, without certificate, that
    carries a condition of type Denied goes through the approval
    transition. *)
Lemma Reconcile_denied request w csr :
  client_Get r (Key request) = Ok csr →
  SignerName (Spec csr) = signerName →
  Certificate (Status csr) = [] →
  hasType CertificateDenied (Conditions (Status csr)) = true →
  EvUpdateApproval (Name (Key request)) (appendCondition approvedCondition csr)
  ∈ issued w (Reconcile r request w).2.
Proof.
  intros Hget Hsigner Hcert Hdenied.
  assert (Happroved : isCertificateRequestApproved csr = false).
  { rewrite isCertificateRequestApproved_spec, Hdenied. apply andb_false_r. }
  rewrite (Reconcile_approval _ _ _ Hget Hsigner Hcert Happroved).
  erewrite issued_app by done. apply elem_of_cons. right. apply elem_of_cons. by left.
Qed.
End runs.

(** The Approved condition the transition appends does not lift a denial:
    the request is classified as not approved again on the next pass. *)
Lemma denied_stays_unapproved (csr : CertificateSigningRequest) :
  hasType CertificateDenied (Conditions (Status csr)) = true →
  isCertificateRequestApproved (appendCondition approvedCondition csr) = false.
Proof.
  intros Hdenied. rewrite isCertificateRequestApproved_spec.
  unfold appendCondition. cbn [Status Conditions].
  rewrite !hasType_app, Hdenied. cbn [orb negb]. apply andb_false_r.
Qed.

(** ** The scenarios, run *)

Import Scenarios.

(** C1: a request of this signer that an administrator has denied and
    that carries no certificate is not left alone: the pass appends an
    Approved condition behind the Denied one and issues the approval
    update with it. *)
Theorem denied_request_reapproved :
  hasType CertificateDenied (Conditions (Status csrDenied)) = true
  ∧ @Reconcile toyX509 (server csrDenied) req w0
    = (Result0, None,
       mkWorld (appendCondition approvedCondition csrDenied)
               [EvGet (Key req);
                EvUpdateApproval "peer-1" (appendCondition approvedCondition csrDenied)]
               ∅)
  ∧ Conditions (Status (appendCondition approvedCondition csrDenied))
    = [cond CertificateDenied; approvedCondition].
Proof. by vm_compute. Qed.

Lemma denial_precedence_witness :
  cond CertificateApproved ∈ Conditions (Status csrBoth)
  ∧ cond CertificateDenied ∈ Conditions (Status csrBoth)
  ∧ getCertApprovalCondition (Status csrBoth) = (true, true)
  ∧ isCertificateRequestApproved csrBoth = false
  ∧ decidePolicy (Conditions (Status csrBoth)) = Denied.
Proof.
  assert (Ha : cond CertificateApproved ∈ Conditions (Status csrBoth))
    by (cbn; apply elem_of_cons; by left).
  assert (Hd : cond CertificateDenied ∈ Conditions (Status csrBoth))
    by (cbn; apply elem_of_cons; right; apply elem_of_cons; by left).
  split; [exact Ha|]. split; [exact Hd|].
  exact (denial_precedence csrBoth _ _ Ha eq_refl Hd eq_refl).
Defined.

Lemma other_signer_no_writes_witness :
  client_Get (server csrOther) (Key req) = Ok csrOther
  ∧ SignerName (Spec csrOther) ≠ signerName
  ∧ ∃ w', @Reconcile toyX509 (server csrOther) req wDegraded = (Result0, None, w')
      ∧ csrObj w' = csrOther
      ∧ trace w' = [EvGet (Key req)]
      ∧ filter (λ e, isWrite e = true) (issued wDegraded w') = []
      ∧ failing w' = failing wDegraded.
Proof.
  assert (Hget : client_Get (server csrOther) (Key req) = Ok csrOther) by reflexivity.
  assert (Hne : SignerName (Spec csrOther) ≠ signerName) by (vm_compute; discriminate).
  split; [exact Hget|]. split; [exact Hne|].
  exact (@other_signer_no_writes toyX509 (server csrOther) req wDegraded csrOther Hget Hne).
Defined.

Lemma issued_request_no_writes_witness :
  client_Get (server csrIssued) (Key req) = Ok csrIssued
  ∧ Certificate (Status csrIssued) ≠ []
  ∧ ∃ w', @Reconcile toyX509 (server csrIssued) req wDegraded = (Result0, None, w')
      ∧ csrObj w' = csrIssued
      ∧ trace w' = [EvGet (Key req)]
      ∧ filter (λ e, isWrite e = true) (issued wDegraded w') = []
      ∧ failing w' = failing wDegraded.
Proof.
  assert (Hget : client_Get (server csrIssued) (Key req) = Ok csrIssued) by reflexivity.
  assert (Hne : Certificate (Status csrIssued) ≠ []) by (vm_compute; discriminate).
  split; [exact Hget|]. split; [exact Hne|].
  exact (@issued_request_no_writes toyX509 (server csrIssued) req wDegraded csrIssued Hget Hne).
Defined.

Lemma approval_stops_pass_witness :
  @Reconcile toyX509 (serverNoApproval csrNew) req wDegraded
  = (Result0, Some conflict, refusedApproval)
  ∧ EvUpdateApproval "peer-1" approvalSent ∈ issued wDegraded refusedApproval
  ∧ ∃ csr logs,
      client_Get (serverNoApproval csrNew) (Key req) = Ok csr
      ∧ approvalSent = appendCondition approvedCondition csr
      ∧ Certificate (Status approvalSent) = []
      ∧ issued wDegraded refusedApproval
        = EvGet (Key req) :: EvUpdateApproval "peer-1" approvalSent :: logs
      ∧ Forall isLog logs
      ∧ Forall (λ e, isSigningStep e = false) (issued wDegraded refusedApproval)
      ∧ (Result0, Some conflict)
        = (Result0,
           (clientset_UpdateApproval (serverNoApproval csrNew) "peer-1" approvalSent).2)
      ∧ csrObj refusedApproval
        = (clientset_UpdateApproval (serverNoApproval csrNew) "peer-1" approvalSent).1
      ∧ failing refusedApproval = failing wDegraded.
Proof.
  assert (Hrun : @Reconcile toyX509 (serverNoApproval csrNew) req wDegraded
                 = (Result0, Some conflict, refusedApproval)) by reflexivity.
  assert (Hin : EvUpdateApproval "peer-1" approvalSent
                ∈ issued wDegraded refusedApproval)
    by (vm_compute; apply elem_of_cons; right; apply elem_of_cons; by left).
  split; [exact Hrun|]. split; [exact Hin|].
  exact (@approval_stops_pass toyX509 (serverNoApproval csrNew) req wDegraded
           _ _ "peer-1" approvalSent Hrun Hin).
Defined.

Lemma issuance_success_witness :
  (client_Get (server csrApproved) (Key req) = Ok csrApproved
   ∧ SignerName (Spec csrApproved) = signerName
   ∧ Certificate (Status csrApproved) = []
   ∧ isCertificateRequestApproved csrApproved = true
   ∧ client_GetSecret (server csrApproved) caSecretKey = Ok caSecret
   ∧ @decodeCertificateRequest toyX509 (Request (Spec csrApproved)) = Ok [x52]
   ∧ @decodeCertificate toyX509 (index (Data caSecret) "tls.crt") = Ok [x43; x41]
   ∧ @decodePrivateKey toyX509 (index (Data caSecret) "tls.key") = Ok [x4b]
   ∧ @signCSR toyX509 [x52] [x52] [x43; x41] [x4b] = Ok [x4b; x52]
   ∧ @EncodeCertificates toyX509 [x4b; x52] = ([x4b; x52], None)
   ∧ [x4b; x52] ≠ []
   ∧ client_Status_Update (server csrApproved) (setCertificate [x4b; x52] csrApproved)
     = None)
  ∧ ∃ w', @Reconcile toyX509 (server csrApproved) req wDegraded = (Result0, None, w')
      ∧ csrObj w' = setCertificate [x4b; x52] csrApproved
      ∧ Certificate (Status (csrObj w')) = [x4b; x52]
      ∧ Certificate (Status (csrObj w')) ≠ []
      ∧ trace w' = [EvGet (Key req); EvGetSecret caSecretKey;
                    EvDecodeCertificateRequest [x52];
                    EvDecodeCertificate [x43; x41];
                    EvDecodePrivateKey [x4b];
                    EvSignCSR; EvEncodeCertificates;
                    EvStatusUpdate (setCertificate [x4b; x52] csrApproved);
                    EvLog ("Certificate signed, issued and approved for peer-1 by "
                           +:+ signerName);
                    EvSetNotDegraded CertificateSigner]
      ∧ failing w' = delete CertificateSigner (failing wDegraded)
      ∧ failing w' !! CertificateSigner = None.
Proof.
  assert (Hpem : [x4b; x52] ≠ @nil byte) by discriminate.
  split; [by split_and!|].
  exact (@issuance_success toyX509 (server csrApproved) req wDegraded csrApproved
           caSecret [x52] [x43; x41] [x4b] [x4b; x52] [x4b; x52]
           eq_refl eq_refl eq_refl eq_refl eq_refl eq_refl eq_refl eq_refl
           eq_refl eq_refl Hpem eq_refl).
Defined.

Lemma ca_failure_degrades_witness :
  (client_Get (serverNoCANoUpdate csrApproved) (Key req) = Ok csrApproved
   ∧ SignerName (Spec csrApproved) = signerName
   ∧ Certificate (Status csrApproved) = []
   ∧ isCertificateRequestApproved csrApproved = true
   ∧ client_GetSecret (serverNoCANoUpdate csrApproved) caSecretKey = Err unavailable)
  ∧ ∃ w', @Reconcile toyX509 (serverNoCANoUpdate csrApproved) req w0
          = (Result0, Some unavailable, w')
      ∧ csrObj w' = caFailureSent
      ∧ Conditions (Status (csrObj w'))
        = [mkCondition "Approved" "True" "ByAdmin" EmptyString;
           mkCondition "Failed" "True" "CAFailure"
             "Could not get CA certificate and key: connection refused"]
      ∧ trace w' = [EvGet (Key req); EvGetSecret caSecretKey;
                    EvLog ("CAFailure: " +:+ caFailureMessage);
                    EvStatusUpdate caFailureSent;
                    EvLog "Could not update CSR status: conflict";
                    EvSetDegraded CertificateSigner "UpdateFailure"
                                  "Unable to update csr: conflict";
                    EvSetDegraded CertificateSigner "CAFailure" caFailureMessage]
      ∧ failing w' !! CertificateSigner = Some ("CAFailure", caFailureMessage).
Proof.
  split; [by split_and!|].
  exact (@ca_failure_degrades toyX509 (serverNoCANoUpdate csrApproved) req w0
           csrApproved unavailable eq_refl eq_refl eq_refl eq_refl eq_refl).
Defined.

(** C8 as stated fails: with a request PEM that does not decode and an
    API server that refuses the status update, the pass ends with the
    CertificateSigner component degraded, although it was not before. *)
Lemma decode_failure_health_counterexample :
  (client_Get (serverNoUpdate csrBadPEM) (Key req) = Ok csrBadPEM
   ∧ SignerName (Spec csrBadPEM) = signerName
   ∧ Certificate (Status csrBadPEM) = []
   ∧ isCertificateRequestApproved csrBadPEM = true
   ∧ client_GetSecret (serverNoUpdate csrBadPEM) caSecretKey = Ok caSecret
   ∧ @decodeCertificateRequest toyX509 (Request (Spec csrBadPEM)) = Err malformed)
  ∧ failing w0 !! CertificateSigner = None
  ∧ (@Reconcile toyX509 (serverNoUpdate csrBadPEM) req w0).1 = (Result0, None)
  ∧ failing (@Reconcile toyX509 (serverNoUpdate csrBadPEM) req w0).2
    !! CertificateSigner
    = Some ("UpdateFailure", "Unable to update csr: conflict")
  ∧ EvSetDegraded CertificateSigner "UpdateFailure" "Unable to update csr: conflict"
    ∈ trace (@Reconcile toyX509 (serverNoUpdate csrBadPEM) req w0).2
  ∧ Conditions (Status (csrObj (@Reconcile toyX509 (serverNoUpdate csrBadPEM) req w0).2))
    = [mkCondition "Approved" "True" "ByAdmin" EmptyString;
       mkCondition "Failed" "True" "CSRDecodeFailure"
         "Could not decode Certificate Request: malformed PEM"].
Proof.
  split; [by split_and!|]. split; [done|]. split; [done|]. split; [by vm_compute|].
  split; [|by vm_compute].
  vm_compute. do 5 (apply elem_of_cons; right). apply elem_of_cons. by left.
Qed.

Lemma decode_failure_recorded_witness :
  (client_Get (server csrBadPEM) (Key req) = Ok csrBadPEM
   ∧ SignerName (Spec csrBadPEM) = signerName
   ∧ Certificate (Status csrBadPEM) = []
   ∧ isCertificateRequestApproved csrBadPEM = true
   ∧ client_GetSecret (server csrBadPEM) caSecretKey = Ok caSecret
   ∧ @decodeCertificateRequest toyX509 (Request (Spec csrBadPEM)) = Err malformed)
  ∧ ∃ w', @Reconcile toyX509 (server csrBadPEM) req wDegraded = (Result0, None, w')
      ∧ csrObj w' = decodeFailureSent
      ∧ Conditions (Status (csrObj w'))
        = [mkCondition "Approved" "True" "ByAdmin" EmptyString;
           mkCondition "Failed" "True" "CSRDecodeFailure"
             "Could not decode Certificate Request: malformed PEM"]
      ∧ trace w' = ([EvGet (Key req); EvGetSecret caSecretKey;
                     EvDecodeCertificateRequest [];
                     EvStatusUpdate decodeFailureSent]
                    ++ afterFailedUpdate
                         (client_Status_Update (server csrBadPEM) decodeFailureSent))%list
      ∧ match client_Status_Update (server csrBadPEM) decodeFailureSent with
        | None => failing w' = failing wDegraded
        | Some uerr =>
            failing w'
            = <[CertificateSigner := ("UpdateFailure", updateFailureMessage uerr)]>
                (failing wDegraded)
        end.
Proof.
  split; [by split_and!|].
  exact (@decode_failure_recorded toyX509 (server csrBadPEM) req wDegraded
           csrBadPEM caSecret malformed eq_refl eq_refl eq_refl eq_refl eq_refl eq_refl).
Defined.

Lemma update_failure_escalates_witness :
  client_Status_Update (serverNoUpdate csrBadPEM) decodeFailureSent = Some conflict
  ∧ (∃ w', updateCSRStatusConditions (serverNoUpdate csrBadPEM) "CSRDecodeFailure"
             "Could not decode Certificate Request: malformed PEM" wFetched
           = (tt, w')
       ∧ csrObj w' = decodeFailureSent
       ∧ trace w' = [EvGet (Key req);
                     EvStatusUpdate decodeFailureSent;
                     EvLog "Could not update CSR status: conflict";
                     EvSetDegraded CertificateSigner "UpdateFailure"
                                   "Unable to update csr: conflict"]
       ∧ failing w' !! CertificateSigner
         = Some ("UpdateFailure", "Unable to update csr: conflict"))
  ∧ (∃ w', signerFailure (serverNoUpdate csrBadPEM) "CSRDecodeFailure"
             "Could not decode Certificate Request: malformed PEM" wFetched
           = (tt, w')
       ∧ csrObj w' = decodeFailureSent
       ∧ trace w' = [EvGet (Key req);
                     EvLog ("CSRDecodeFailure: "
                            +:+ "Could not decode Certificate Request: malformed PEM");
                     EvStatusUpdate decodeFailureSent;
                     EvLog "Could not update CSR status: conflict";
                     EvSetDegraded CertificateSigner "UpdateFailure"
                                   "Unable to update csr: conflict";
                     EvSetDegraded CertificateSigner "CSRDecodeFailure"
                       "Could not decode Certificate Request: malformed PEM"]
       ∧ failing w' !! CertificateSigner
         = Some ("CSRDecodeFailure",
                 "Could not decode Certificate Request: malformed PEM")).
Proof.
  split; [reflexivity|].
  exact (update_failure_escalates (serverNoUpdate csrBadPEM) "CSRDecodeFailure"
           "Could not decode Certificate Request: malformed PEM" wFetched conflict
           eq_refl).
Defined.

Lemma appended_conditions_witness :
  @Reconcile toyX509 (serverNoCA csrApproved) req w0
  = (Result0, Some unavailable, caFailureRecorded)
  ∧ EvStatusUpdate caFailureSent ∈ issued w0 caFailureRecorded
  ∧ written (EvStatusUpdate caFailureSent) = Some caFailureSent
  ∧ ∃ csr added,
      client_Get (serverNoCA csrApproved) (Key req) = Ok csr
      ∧ Conditions (Status caFailureSent) = (Conditions (Status csr) ++ added)%list
      ∧ (length added ≤ 1)%nat
      ∧ Forall controllerCondition added
      ∧ Forall (λ c, Type_ c ≠ CertificateDenied) added.
Proof.
  assert (Hrun : @Reconcile toyX509 (serverNoCA csrApproved) req w0
                 = (Result0, Some unavailable, caFailureRecorded)) by reflexivity.
  assert (Hin : EvStatusUpdate caFailureSent ∈ issued w0 caFailureRecorded)
    by (vm_compute; do 3 (apply elem_of_cons; right); apply elem_of_cons; by left).
  split; [exact Hrun|]. split; [exact Hin|]. split; [reflexivity|].
  exact (@appended_conditions toyX509 (serverNoCA csrApproved) req w0 _ _
           (EvStatusUpdate caFailureSent) caFailureSent Hrun Hin eq_refl).
Defined.

(** ** Every pass follows one path *)

Section pass.
Context `{X509}.
Variable r : ReconcileCSR.
Implicit Types (w : World) (csr : CertificateSigningRequest)
         (request : ReconcileRequest).

Lemma Reconcile_Pass request w res w' :
  Reconcile r request w = (res, w') →
  ∃ csr' evs h',
    w' = mkWorld csr' (trace w ++ evs)%list h'
    ∧ Pass r request (failing w) res csr' evs h'.
Proof.
  run_top.
  destruct (client_Get r (Key request)) as [csr|gerr] eqn:Hget;
    cbn [csrObj trace failing].
  2: { destruct (IsNotFound gerr) eqn:Hnf; intros [= <- <-];
       eexists _, _, _; (split; [rewrite <- ?app_assoc; reflexivity|]).
       - by eapply PassNotFound.
       - by eapply PassFetchError. }
  destruct (decide (SignerName (Spec csr) ≠ signerName)) as [Hsigner|Hsigner].
  { intros [= <- <-]. eexists _, _, _. split; [reflexivity|].
    by eapply PassOtherSigner. }
  apply dec_stable in Hsigner.
  destruct (decide (length (Certificate (Status csr)) ≠ 0)) as [Hcert|Hcert].
  { intros [= <- <-]. eexists _, _, _. split; [reflexivity|].
    eapply PassIssued; [done..|]. by intros Hc; rewrite Hc in Hcert. }
  assert (Certificate (Status csr) = []) as Hc
    by (destruct (Certificate (Status csr)); [done|by destruct Hcert]).
  clear Hcert.
  destruct (isCertificateRequestApproved csr) eqn:Happroved; cbn [negb].
  2: { destruct (clientset_UpdateApproval r _ _) as [o oerr] eqn:Hup.
       cbn [csrObj trace failing].
       destruct oerr as [aerr|]; intros [= <- <-];
         eexists _, _, _; (split; [rewrite <- ?app_assoc; reflexivity|]).
       - eapply (PassApproval _ _ _ csr _ (o, Some aerr)); by rewrite ?Hup.
       - eapply (PassApproval _ _ _ csr _ (o, None)); by rewrite ?Hup. }
  assert (Hs : signable r request csr) by done.
  repeat first
    [ progress (rewrite ?signerFailure_run, ?updateCSRStatusConditions_run;
                cbn [csrObj trace failing])
    | destruct (EncodeCertificates _) as [pem [err|]] eqn:?
    | case_match ].
  all: intros ?; simplify_eq; eexists _, _, _;
    (split; [rewrite <- ?app_assoc; reflexivity|]).
  all: cbn [app].
  - eapply PassEncodeFailure; eauto.
  - eapply PassUpdateError; eauto.
  - eapply PassSigned; eauto.
  - eapply PassSigningFailure; eauto.
  - eapply PassCorruptCAKey; eauto.
  - eapply PassCorruptCACert; eauto.
  - eapply PassCSRDecodeFailure; eauto.
  - eapply PassCAFailure; eauto.
Qed.

Lemma Pass_Reconcile request w res csr' evs h' :
  Pass r request (failing w) res csr' evs h' →
  Reconcile r request w = (res, mkWorld csr' (trace w ++ evs)%list h').
Proof.
  destruct 1 as [gerr Hget Hnf|gerr Hget Hnf|csr Hget Hsigner
    |csr Hget Hsigner Hcert|csr obj answer Hget Hsigner Hcert Happroved -> ->
    |csr ? ? ? (Hget & Hsigner & Hcert & Happroved) Hca -> ->
    |csr ? ? ? ? (Hget & Hsigner & Hcert & Happroved) Hca Hreq -> ->
    |csr ? ? ? ? ? (Hget & Hsigner & Hcert & Happroved) Hca Hreq Hcrt -> ->
    |csr ? ? ? ? ? ? (Hget & Hsigner & Hcert & Happroved) Hca Hreq Hcrt Hkey -> ->
    |csr ? ? ? ? ? ? ? (Hget & Hsigner & Hcert & Happroved)
       Hca Hreq Hcrt Hkey Hsign -> ->
    |csr ? ? ? ? ? ? ? ? ? (Hget & Hsigner & Hcert & Happroved)
       Hca Hreq Hcrt Hkey Hsign Henc -> ->
    |csr ? ? ? ? ? ? ? ? (Hget & Hsigner & Hcert & Happroved)
       Hca Hreq Hcrt Hkey Hsign Henc -> Hupd
    |csr ? ? ? ? ? ? ? (Hget & Hsigner & Hcert & Happroved)
       Hca Hreq Hcrt Hkey Hsign Henc -> Hupd].
  1-2: run_top; rewrite Hget; cbn [csrObj trace failing]; rewrite Hnf;
       cbn [csrObj trace failing]; rewrite <- ?app_assoc; reflexivity.
  - run_top. rewrite Hget. cbn [csrObj trace failing].
    by destruct (decide (SignerName (Spec csr) ≠ signerName)).
  - run_top. rewrite Hget. cbn [csrObj trace failing].
    destruct (decide (SignerName (Spec csr) ≠ signerName)); [done|].
    destruct (decide (length (Certificate (Status csr)) ≠ 0)) as [|Hl]; [done|].
    destruct Hl. by destruct (Certificate (Status csr)).
  - rewrite (Reconcile_approval _ _ _ _ Hget Hsigner Hcert Happroved).
    by destruct (clientset_UpdateApproval r _ _) as [? [?|]].
  - approved_gate Hget Hsigner Hcert Happroved.
    rewrite Hca, signerFailure_run. cbn [csrObj trace failing].
    by rewrite <- !app_assoc.
  - approved_gate Hget Hsigner Hcert Happroved.
    rewrite Hca. cbn [csrObj trace failing].
    rewrite Hreq, updateCSRStatusConditions_run. cbn [csrObj trace failing].
    by rewrite <- !app_assoc.
  - approved_gate Hget Hsigner Hcert Happroved.
    rewrite Hca. cbn [csrObj trace failing].
    rewrite Hreq, Hcrt, signerFailure_run. cbn [csrObj trace failing].
    by rewrite <- !app_assoc.
  - approved_gate Hget Hsigner Hcert Happroved.
    rewrite Hca. cbn [csrObj trace failing].
    rewrite Hreq, Hcrt, Hkey, signerFailure_run. cbn [csrObj trace failing].
    by rewrite <- !app_assoc.
  - approved_gate Hget Hsigner Hcert Happroved.
    rewrite Hca. cbn [csrObj trace failing].
    rewrite Hreq, Hcrt, Hkey, Hsign, signerFailure_run.
    cbn [csrObj trace failing]. by rewrite <- !app_assoc.
  - approved_gate Hget Hsigner Hcert Happroved.
    rewrite Hca. cbn [csrObj trace failing].
    rewrite Hreq, Hcrt, Hkey, Hsign, Henc, signerFailure_run.
    cbn [csrObj trace failing]. by rewrite <- !app_assoc.
  - approved_gate Hget Hsigner Hcert Happroved.
    rewrite Hca. cbn [csrObj trace failing].
    rewrite Hreq, Hcrt, Hkey, Hsign, Henc. cbn [csrObj trace failing].
    rewrite Hupd. cbn [csrObj trace failing]. by rewrite <- !app_assoc.
  - approved_gate Hget Hsigner Hcert Happroved.
    rewrite Hca. cbn [csrObj trace failing].
    rewrite Hreq, Hcrt, Hkey, Hsign, Henc. cbn [csrObj trace failing].
    rewrite Hupd. cbn [csrObj trace failing]. by rewrite <- !app_assoc.
Qed.
End pass.

(** ** More on the approval policy *)

(** X1: a request is classified as approved exactly when one of its
    conditions has type Approved and none has type Denied. *)
Theorem approved_iff (csr : CertificateSigningRequest) :
  isCertificateRequestApproved csr = true
  ↔ (∃ c, c ∈ Conditions (Status csr) ∧ Type_ c = CertificateApproved)
    ∧ (∀ c, c ∈ Conditions (Status csr) → Type_ c ≠ CertificateDenied).
Proof.
  rewrite isCertificateRequestApproved_spec, andb_true_iff, negb_true_iff.
  rewrite hasType_true, <- not_true_iff_false, hasType_true.
  split; intros [Ha Hd]; (split; [done|]).
  - intros c Hin Hc. apply Hd. by exists c.
  - intros (c & Hin & Hc). by apply (Hd c).
Qed.

(** X2: the classification depends on the set of recorded conditions
    only: two condition lists with the same members, in whatever order
    and however often repeated, yield the same pair of flags, whatever
    the rest of the status. *)
Theorem approval_ignores_order (st1 st2 : CertificateSigningRequestStatus) :
  (∀ c, c ∈ Conditions st1 ↔ c ∈ Conditions st2) →
  getCertApprovalCondition st1 = getCertApprovalCondition st2.
Proof.
  intros Hsame. rewrite !getCertApprovalCondition_spec.
  assert (Ht : ∀ t, hasType t (Conditions st1) = hasType t (Conditions st2)).
  { intros t. apply eq_true_iff_eq. rewrite !hasType_true.
    split; intros (c & Hin & Hc); exists c; split; try done; by apply Hsame. }
  by rewrite !Ht.
Qed.

(** X3: recording a failure does not change the classification: with a
    Failed condition appended, whatever its reason and message, both
    flags are as before. *)
Theorem failure_keeps_classification (csr : CertificateSigningRequest)
    (reason message : string) :
  getCertApprovalCondition (Status (appendCondition (failedCondition reason message) csr))
  = getCertApprovalCondition (Status csr).
Proof.
  rewrite !getCertApprovalCondition_spec. unfold appendCondition.
  cbn [Status Conditions]. rewrite !hasType_app. cbn.
  by rewrite !orb_false_r.
Qed.

(** X4: the Approved condition of the approval transition makes the
    request approved exactly when it carries no condition of type
    Denied. *)
Theorem approval_lifts_unless_denied (csr : CertificateSigningRequest) :
  isCertificateRequestApproved (appendCondition approvedCondition csr)
  = negb (hasType CertificateDenied (Conditions (Status csr))).
Proof.
  rewrite isCertificateRequestApproved_spec. unfold appendCondition.
  cbn [Status Conditions]. rewrite !hasType_app. cbn.
  by rewrite orb_true_r, orb_false_r.
Qed.

(** ** The other paths of [Reconcile] *)

Section more_runs.
Context `{X509}.
Variable r : ReconcileCSR.
Implicit Types (w : World) (csr : CertificateSigningRequest)
         (request : ReconcileRequest).

(** X5: when the request is not found the pass ends at once without
    error: nothing is logged, nothing is written, the health state is
    unchanged. *)
Theorem not_found_is_silent request w gerr :
  client_Get r (Key request) = Err gerr →
  IsNotFound gerr = true →
  Reconcile r request w
  = (Result0, None,
     mkWorld emptyCSR (trace w ++ [EvGet (Key request)])%list (failing w)).
Proof. intros. by apply Pass_Reconcile, (PassNotFound _ _ _ gerr). Qed.

(** X6: any other error of the read of the request is logged and
    returned; nothing is written and the health state is unchanged. *)
Theorem fetch_error_is_returned request w gerr :
  client_Get r (Key request) = Err gerr →
  IsNotFound gerr = false →
  Reconcile r request w
  = (Result0, Some gerr,
     mkWorld emptyCSR (trace w ++ [EvGet (Key request); EvLog (Error gerr)])%list
             (failing w)).
Proof. intros. by apply Pass_Reconcile, (PassFetchError _ _ _ gerr). Qed.

(** X7: a fetched request of this signer, without certificate, that is
    not classified as approved gets exactly one condition appended, the
    AutoApproved one, and is sent in the approval update; the pass
    returns what that update returns, object and error, issues no status
    update and leaves the health state unchanged. *)
Theorem unapproved_request_is_approved request w csr :
  client_Get r (Key request) = Ok csr →
  SignerName (Spec csr) = signerName →
  Certificate (Status csr) = [] →
  isCertificateRequestApproved csr = false →
  ∃ w' obj,
    Reconcile r request w
    = (Result0, (clientset_UpdateApproval r (Name (Key request)) obj).2, w')
    ∧ Conditions (Status obj) = (Conditions (Status csr) ++ [approvedCondition])%list
    ∧ Certificate (Status obj) = []
    ∧ Spec obj = Spec csr
    ∧ csrObj w' = (clientset_UpdateApproval r (Name (Key request)) obj).1
    ∧ sent (issued w w') = [obj]
    ∧ (∀ o, EvStatusUpdate o ∉ issued w w')
    ∧ failing w' = failing w.
Proof.
  intros Hget Hsigner Hcert Happroved.
  eexists _, (appendCondition approvedCondition csr). split.
  { by apply Pass_Reconcile, (PassApproval _ _ _ csr). }
  erewrite issued_app by done. split_and!; try done.
  - by destruct (_.2).
  - intros o. rewrite !elem_of_cons. intros [?|[?|Hin]]; [done..|].
    destruct (_.2) in Hin; [|by apply elem_of_nil in Hin].
    by apply list_elem_of_singleton in Hin.
Qed.

(** X8: when the CA certificate of the secret does not decode, the pass
    records Failed / CorruptCACert on the request (its conditions are
    the fetched ones followed by that one, its certificate field stays
    empty), reports the
    CertificateSigner component degraded with that reason and returns no
    error; the CA key is not decoded and nothing is signed. *)
Theorem corrupt_ca_certificate_degrades request w csr caSecret certReq err :
  signable r request csr →
  client_GetSecret r caSecretKey = Ok caSecret →
  decodeCertificateRequest (Request (Spec csr)) = Ok certReq →
  decodeCertificate (index (Data caSecret) "tls.crt") = Err err →
  let message := "Unable to decode CA certificate for " +:+ signerName +:+ ": "
                 +:+ Error err in
  let obj := appendCondition (failedCondition "CorruptCACert" message) csr in
  Reconcile r request w
  = (Result0, None,
     mkWorld obj
       (trace w ++ EvGet (Key request) :: EvGetSecret caSecretKey
          :: EvDecodeCertificateRequest (Request (Spec csr))
          :: EvDecodeCertificate (index (Data caSecret) "tls.crt")
          :: failureEvents r "CorruptCACert" message obj)%list
       (<[CertificateSigner := ("CorruptCACert", message)]> (failing w)))
  ∧ Conditions (Status obj)
    = (Conditions (Status csr)
       ++ [mkCondition "Failed" "True" "CorruptCACert" message])%list
  ∧ Certificate (Status obj) = [].
Proof.
  intros Hs **. split; [apply Pass_Reconcile; by eapply PassCorruptCACert|].
  split; [done|]. by destruct Hs as (_ & _ & ? & _).
Qed.

(** X9: when the CA key of the secret does not decode, the pass records
    Failed / CorruptCAKey on the request (its conditions are the fetched
    ones followed by that one, its certificate field stays empty),
    reports the CertificateSigner
    component degraded with that reason and returns no error; nothing is
    signed. *)
Theorem corrupt_ca_key_degrades request w csr caSecret certReq caCert err :
  signable r request csr →
  client_GetSecret r caSecretKey = Ok caSecret →
  decodeCertificateRequest (Request (Spec csr)) = Ok certReq →
  decodeCertificate (index (Data caSecret) "tls.crt") = Ok caCert →
  decodePrivateKey (index (Data caSecret) "tls.key") = Err err →
  let message := "Unable to decode CA private key for " +:+ signerName +:+ ": "
                 +:+ Error err in
  let obj := appendCondition (failedCondition "CorruptCAKey" message) csr in
  Reconcile r request w
  = (Result0, None,
     mkWorld obj
       (trace w ++ EvGet (Key request) :: EvGetSecret caSecretKey
          :: EvDecodeCertificateRequest (Request (Spec csr))
          :: EvDecodeCertificate (index (Data caSecret) "tls.crt")
          :: EvDecodePrivateKey (index (Data caSecret) "tls.key")
          :: failureEvents r "CorruptCAKey" message obj)%list
       (<[CertificateSigner := ("CorruptCAKey", message)]> (failing w)))
  ∧ Conditions (Status obj)
    = (Conditions (Status csr)
       ++ [mkCondition "Failed" "True" "CorruptCAKey" message])%list
  ∧ Certificate (Status obj) = [].
Proof.
  intros Hs **. split; [apply Pass_Reconcile; by eapply PassCorruptCAKey|].
  split; [done|]. by destruct Hs as (_ & _ & ? & _).
Qed.

(** X10: when signing fails, the pass records Failed / SigningFailure on
    the request (its conditions are the fetched ones followed by that
    one), reports the CertificateSigner component degraded with
    that reason and returns no error; the certificate field stays
    empty. *)
Theorem signing_failure_degrades request w csr caSecret certReq caCert caKey err :
  signable r request csr →
  client_GetSecret r caSecretKey = Ok caSecret →
  decodeCertificateRequest (Request (Spec csr)) = Ok certReq →
  decodeCertificate (index (Data caSecret) "tls.crt") = Ok caCert →
  decodePrivateKey (index (Data caSecret) "tls.key") = Ok caKey →
  signCSR (newCertificateTemplate certReq) (PublicKey certReq) caCert caKey
    = Err err →
  let message := "Unable to sign certificate for " +:+ Name (Key request)
                 +:+ " and signer " +:+ signerName +:+ ": " +:+ Error err in
  let obj := appendCondition (failedCondition "SigningFailure" message) csr in
  Reconcile r request w
  = (Result0, None,
     mkWorld obj
       (trace w ++ EvGet (Key request) :: EvGetSecret caSecretKey
          :: EvDecodeCertificateRequest (Request (Spec csr))
          :: EvDecodeCertificate (index (Data caSecret) "tls.crt")
          :: EvDecodePrivateKey (index (Data caSecret) "tls.key")
          :: EvSignCSR
          :: failureEvents r "SigningFailure" message obj)%list
       (<[CertificateSigner := ("SigningFailure", message)]> (failing w)))
  ∧ Conditions (Status obj)
    = (Conditions (Status csr)
       ++ [mkCondition "Failed" "True" "SigningFailure" message])%list
  ∧ Certificate (Status obj) = [].
Proof.
  intros Hs **. split; [apply Pass_Reconcile; by eapply PassSigningFailure|].
  split; [done|]. by destruct Hs as (_ & _ & ? & _).
Qed.

(** X11: when the encoder returns an error, the bytes it returns with
    the error are in the certificate field all the same, since the field
    is assigned before the error is looked at: the object that records
    Failed / EncodeFailure carries them.  The component is reported
    degraded with that reason and no error is returned. *)
Theorem encode_failure_degrades request w csr caSecret certReq caCert caKey
    signedCert pem err :
  signable r request csr →
  client_GetSecret r caSecretKey = Ok caSecret →
  decodeCertificateRequest (Request (Spec csr)) = Ok certReq →
  decodeCertificate (index (Data caSecret) "tls.crt") = Ok caCert →
  decodePrivateKey (index (Data caSecret) "tls.key") = Ok caKey →
  signCSR (newCertificateTemplate certReq) (PublicKey certReq) caCert caKey
    = Ok signedCert →
  EncodeCertificates signedCert = (pem, Some err) →
  let message := "Could not encode certificate: " +:+ Error err in
  let obj := appendCondition (failedCondition "EncodeFailure" message)
               (setCertificate pem csr) in
  Reconcile r request w
  = (Result0, None,
     mkWorld obj
       (trace w ++ EvGet (Key request) :: EvGetSecret caSecretKey
          :: EvDecodeCertificateRequest (Request (Spec csr))
          :: EvDecodeCertificate (index (Data caSecret) "tls.crt")
          :: EvDecodePrivateKey (index (Data caSecret) "tls.key")
          :: EvSignCSR :: EvEncodeCertificates
          :: failureEvents r "EncodeFailure" message obj)%list
       (<[CertificateSigner := ("EncodeFailure", message)]> (failing w)))
  ∧ Certificate (Status obj) = pem.
Proof.
  intros. split; [|done]. apply Pass_Reconcile. by eapply PassEncodeFailure.
Qed.

(** X12: when the status update that carries the signed certificate
    fails, the pass logs that error, as its last event and right after
    the status update, and returns it; it appends no condition and calls
    the status manager neither way, so the health state is as it was. *)
Theorem certificate_update_error_is_returned request w csr caSecret certReq
    caCert caKey signedCert pem uerr :
  signable r request csr →
  client_GetSecret r caSecretKey = Ok caSecret →
  decodeCertificateRequest (Request (Spec csr)) = Ok certReq →
  decodeCertificate (index (Data caSecret) "tls.crt") = Ok caCert →
  decodePrivateKey (index (Data caSecret) "tls.key") = Ok caKey →
  signCSR (newCertificateTemplate certReq) (PublicKey certReq) caCert caKey
    = Ok signedCert →
  EncodeCertificates signedCert = (pem, None) →
  client_Status_Update r (setCertificate pem csr) = Some uerr →
  ∃ w',
    Reconcile r request w = (Result0, Some uerr, w')
    ∧ csrObj w' = setCertificate pem csr
    ∧ Conditions (Status (csrObj w')) = Conditions (Status csr)
    ∧ trace w'
      = (trace w
         ++ [EvGet (Key request); EvGetSecret caSecretKey;
             EvDecodeCertificateRequest (Request (Spec csr));
             EvDecodeCertificate (index (Data caSecret) "tls.crt");
             EvDecodePrivateKey (index (Data caSecret) "tls.key");
             EvSignCSR; EvEncodeCertificates;
             EvStatusUpdate (setCertificate pem csr);
             EvLog ("Unable to update signed certificate for "
                    +:+ Name (Key request) +:+ " and signer " +:+ signerName
                    +:+ ": " +:+ Error uerr)])%list
    ∧ last (issued w w')
      = Some (EvLog ("Unable to update signed certificate for "
                     +:+ Name (Key request) +:+ " and signer " +:+ signerName
                     +:+ ": " +:+ Error uerr))
    ∧ sent (issued w w') = [setCertificate pem csr]
    ∧ (∀ e, e ∈ issued w w' → isWrite e = true → e = EvStatusUpdate (csrObj w'))
    ∧ failing w' = failing w.
Proof.
  intros. eexists. split.
  { apply Pass_Reconcile. by eapply PassUpdateError. }
  erewrite issued_app by done. cbn [csrObj trace failing]. split_and!; try done.
  intros e. rewrite !elem_of_cons, elem_of_nil.
  intros Hin Hw. destruct_or! Hin; subst e; try done.
Qed.

(** X13: a CA secret without the entry tls.crt is read as an empty
    certificate: the decoder is given the empty byte string, and when it
    refuses it the pass takes the CorruptCACert path. *)
Theorem missing_ca_entry_is_corrupt request w csr caSecret certReq err :
  signable r request csr →
  client_GetSecret r caSecretKey = Ok caSecret →
  Data caSecret !! "tls.crt" = None →
  decodeCertificateRequest (Request (Spec csr)) = Ok certReq →
  decodeCertificate [] = Err err →
  ∃ w' message,
    Reconcile r request w = (Result0, None, w')
    ∧ EvDecodeCertificate [] ∈ issued w w'
    ∧ csrObj w' = appendCondition (failedCondition "CorruptCACert" message) csr
    ∧ failing w' !! CertificateSigner = Some ("CorruptCACert", message)
    ∧ (∀ b, EvDecodePrivateKey b ∉ issued w w')
    ∧ EvSignCSR ∉ issued w w'.
Proof.
  intros Hs Hca Hnone Hreq Hcrt.
  assert (Hidx : index (Data caSecret) "tls.crt" = []).
  { unfold index. by rewrite Hnone. }
  rewrite <- Hidx in Hcrt. eexists _, _. split.
  { apply Pass_Reconcile. by eapply PassCorruptCACert. }
  erewrite issued_app by done. cbn [csrObj trace failing]. rewrite Hidx.
  split_and!; try done.
  - do 3 (apply elem_of_cons; right). apply elem_of_cons. by left.
  - by rewrite lookup_insert_eq.
  - intros b. unfold failureEvents.
    destruct (client_Status_Update r _); cbn [afterFailedUpdate app];
      rewrite !elem_of_cons, elem_of_nil; intros Hin; by destruct_or! Hin.
  - unfold failureEvents.
    destruct (client_Status_Update r _); cbn [afterFailedUpdate app];
      rewrite !elem_of_cons, elem_of_nil; intros Hin; by destruct_or! Hin.
Qed.
End more_runs.

(** ** What holds of every pass *)

Section every_pass.
Context `{X509}.
Variable r : ReconcileCSR.
Implicit Types (w : World) (csr : CertificateSigningRequest)
         (request : ReconcileRequest).

(** X14: a pass touches the health of the CertificateSigner component
    only: its calls to the status manager all name that component, and
    the degraded condition of every other component is as it was. *)
Theorem other_components_untouched request w (level : StatusLevel) :
  level ≠ CertificateSigner →
  Forall (healthCallOn CertificateSigner) (issued w (Reconcile r request w).2)
  ∧ failing (Reconcile r request w).2 !! level = failing w !! level.
Proof.
  intros Hne. destruct (Reconcile r request w) as [res w'] eqn:Hrun.
  apply Reconcile_Pass in Hrun as (csr' & evs & h' & -> & HP).
  cbn [snd failing]. erewrite issued_app by done. split.
  - destruct HP; explicit_events; by repeat constructor.
  - destruct HP; unfold escalate; try case_match;
      by rewrite ?lookup_insert_ne, ?lookup_delete_ne.
Qed.

(** X15: a pass sends at most one object to the API server, in the
    approval update or in a status update. *)
Theorem at_most_one_object_sent request w :
  (length (sent (issued w (Reconcile r request w).2)) ≤ 1)%nat.
Proof.
  destruct (Reconcile r request w) as [res w'] eqn:Hrun.
  apply Reconcile_Pass in Hrun as (csr' & evs & h' & -> & HP).
  cbn [snd]. erewrite issued_app by done.
  destruct HP; explicit_events; cbn; lia.
Qed.

(** X16: the result of a pass is always the zero [Result], whether it
    returns an error or not, and an error
    it returns is always one an API call answered: the read of the
    request, the read of the CA secret, the approval update or a status
    update of the pass.  Errors of decoding, signing and encoding are
    never returned. *)
Theorem returned_error_is_an_api_answer request w res w' :
  Reconcile r request w = (res, w') →
  res.1 = Result0
  ∧ ∀ err, res.2 = Some err →
      client_Get r (Key request) = Err err
      ∨ client_GetSecret r caSecretKey = Err err
      ∨ (∃ obj, EvUpdateApproval (Name (Key request)) obj ∈ issued w w'
                ∧ (clientset_UpdateApproval r (Name (Key request)) obj).2 = Some err)
      ∨ (∃ obj, EvStatusUpdate obj ∈ issued w w'
                ∧ client_Status_Update r obj = Some err).
Proof.
  intros Hrun.
  apply Reconcile_Pass in Hrun as (csr' & evs & h' & -> & HP).
  erewrite issued_app by done.
  destruct HP; (split; [done|]); intros rerr Herr;
    cbn [fst snd] in *; simplify_eq.
  - by left.
  - right; right; left. eexists. split; [|done].
    apply elem_of_cons. right. apply elem_of_cons. by left.
  - match goal with Hs : signable _ _ _ |- _ => clear Hs end. right. by left.
  - right; right; right. eexists. split; [|done].
    do 7 (apply elem_of_cons; right). apply elem_of_cons. by left.
Qed.

(** X17: whatever object a pass sends to the API server has the name and
    the spec of the request it fetched: signer name and request bytes are
    never rewritten. *)
Theorem sent_object_keeps_spec request w res w' obj :
  Reconcile r request w = (res, w') →
  obj ∈ sent (issued w w') →
  ∃ csr, client_Get r (Key request) = Ok csr
    ∧ ObjectName obj = ObjectName csr
    ∧ Spec obj = Spec csr.
Proof.
  intros Hrun Hin.
  apply Reconcile_Pass in Hrun as (csr' & evs & h' & -> & HP).
  erewrite issued_app in Hin by done.
  apply list_elem_of_omap in Hin as (e & Hin & Hobj).
  destruct HP; try match goal with Hs : signable _ _ _ |- _ =>
                     destruct Hs as (Hget & _) end;
    explicit_events; split_elem_of Hin; cbn in Hobj; simplify_eq;
    by eexists.
Qed.

(** X18: a step of signing (the read of the CA secret, a decoding, the
    signing, the encoding, a status update) occurs only in a pass on a
    fetched request of this signer, without certificate, that is
    classified as approved. *)
Theorem signing_needs_approval request w res w' e :
  Reconcile r request w = (res, w') →
  e ∈ issued w w' →
  isSigningStep e = true →
  ∃ csr, signable r request csr.
Proof.
  intros Hrun Hin He.
  apply Reconcile_Pass in Hrun as (csr' & evs & h' & -> & HP).
  erewrite issued_app in Hin by done.
  destruct HP; try (by eexists).
  all: explicit_events; split_elem_of Hin; done.
Qed.

(** X19: a fetched request that carries a condition of type Denied is
    never signed: no step of signing occurs in the pass, its certificate
    field is not set, and the health state is unchanged. *)
Theorem denied_request_is_not_signed request w csr :
  client_Get r (Key request) = Ok csr →
  hasType CertificateDenied (Conditions (Status csr)) = true →
  Forall (λ e, isSigningStep e = false) (issued w (Reconcile r request w).2)
  ∧ Forall (λ obj, Certificate (Status obj) = Certificate (Status csr))
           (sent (issued w (Reconcile r request w).2))
  ∧ failing (Reconcile r request w).2 = failing w.
Proof.
  intros Hget Hdenied.
  assert (Happroved : isCertificateRequestApproved csr = false).
  { rewrite isCertificateRequestApproved_spec, Hdenied. apply andb_false_r. }
  destruct (Reconcile r request w) as [res w'] eqn:Hrun.
  apply Reconcile_Pass in Hrun as (csr' & evs & h' & -> & HP).
  cbn [snd failing]. erewrite issued_app by done.
  destruct HP; try match goal with Hs : signable _ _ _ |- _ =>
                     destruct Hs as (? & _ & _ & ?) end;
    same_fetch Hget; try congruence.
  all: explicit_events; cbn; split_and!; try done; by repeat constructor.
Qed.

(** X20: the status manager is told that the component is not degraded
    only at the end of a pass that returns no error and whose status
    update, carrying a certificate and no new condition, went through. *)
Theorem not_degraded_only_after_issuance request w res w' level :
  Reconcile r request w = (res, w') →
  EvSetNotDegraded level ∈ issued w w' →
  level = CertificateSigner
  ∧ res = (Result0, None)
  ∧ last (issued w w') = Some (EvSetNotDegraded CertificateSigner)
  ∧ EvStatusUpdate (csrObj w') ∈ issued w w'
  ∧ client_Status_Update r (csrObj w') = None
  ∧ failing w' !! CertificateSigner = None
  ∧ ∃ csr signedCert,
      signable r request csr
      ∧ Conditions (Status (csrObj w')) = Conditions (Status csr)
      ∧ Certificate (Status (csrObj w')) = (EncodeCertificates signedCert).1.
Proof.
  intros Hrun Hin.
  apply Reconcile_Pass in Hrun as (csr' & evs & h' & -> & HP).
  erewrite issued_app in * by done. cbn [csrObj failing].
  destruct HP; explicit_events; split_elem_of Hin; simplify_eq.
  split_and!; try done.
  - do 7 (apply elem_of_cons; right). apply elem_of_cons. by left.
  - by rewrite lookup_delete_eq.
  - eexists _, _. split_and!; [done|done|].
    match goal with Henc : EncodeCertificates _ = _ |- _ => by rewrite Henc end.
Qed.

(** X21: a pass reads the request once, as its first call, and reads no
    secret but the CA secret openshift-ovn-kubernetes/signer-ca. *)
Theorem reads_of_a_pass request w :
  ∃ rest,
    issued w (Reconcile r request w).2 = EvGet (Key request) :: rest
    ∧ Forall laterRead rest.
Proof.
  destruct (Reconcile r request w) as [res w'] eqn:Hrun.
  apply Reconcile_Pass in Hrun as (csr' & evs & h' & -> & HP).
  cbn [snd]. erewrite issued_app by done.
  destruct HP; explicit_events; (eexists; split; [reflexivity|]);
    by repeat constructor.
Qed.

(** X22: a certificate a pass sends to the API server is what the
    encoder returned for the certificate signed from the decoded request,
    under the public key of that request, with the decoded certificate
    and key of the CA secret. *)
Theorem sent_certificate_is_the_signed_one request w res w' obj :
  Reconcile r request w = (res, w') →
  obj ∈ sent (issued w w') →
  Certificate (Status obj) ≠ [] →
  ∃ csr caSecret certReq caCert caKey signedCert,
    signable r request csr
    ∧ client_GetSecret r caSecretKey = Ok caSecret
    ∧ decodeCertificateRequest (Request (Spec csr)) = Ok certReq
    ∧ decodeCertificate (index (Data caSecret) "tls.crt") = Ok caCert
    ∧ decodePrivateKey (index (Data caSecret) "tls.key") = Ok caKey
    ∧ signCSR (newCertificateTemplate certReq) (PublicKey certReq) caCert caKey
      = Ok signedCert
    ∧ Certificate (Status obj) = (EncodeCertificates signedCert).1.
Proof.
  intros Hrun Hin Hcert.
  apply Reconcile_Pass in Hrun as (csr' & evs & h' & -> & HP).
  erewrite issued_app in Hin by done.
  apply list_elem_of_omap in Hin as (e & Hin & Hobj).
  destruct HP;
    try match goal with Hs : signable _ _ _ |- _ =>
          pose proof Hs as (_ & _ & Hempty & _) end;
    match goal with
    | Henc : EncodeCertificates _ = _ |- _ =>
        explicit_events; split_elem_of Hin; cbn in Hobj; simplify_eq;
        eexists _, _, _, _, _, _; split_and!; try done;
        by rewrite Henc
    | _ =>
        explicit_events; split_elem_of Hin; cbn in Hobj; simplify_eq;
        by destruct Hcert
    end.
Qed.
End every_pass.

(** ** From one pass to the next *)

Section next_pass.
Context `{X509}.
Implicit Types (r : ReconcileCSR) (w : World) (csr : CertificateSigningRequest)
         (request : ReconcileRequest).

Lemma signable_appendFailed r1 r2 request csr reason message :
  signable r1 request csr →
  client_Get r2 (Key request)
  = Ok (appendCondition (failedCondition reason message) csr) →
  signable r2 request (appendCondition (failedCondition reason message) csr).
Proof.
  intros (_ & Hsigner & Hcert & Happroved) Hget. split_and!; try done.
  rewrite isCertificateRequestApproved_spec in *. unfold appendCondition.
  cbn [Status Conditions]. rewrite !hasType_app. cbn.
  by rewrite !orb_false_r.
Qed.

(** X23: approval and signing compose over two passes: the object a
    pass sends in its approval update, once it is what the next pass
    fetches, passes the gates towards signing, provided it carries no
    condition of type Denied; the next pass issues no approval update and
    goes on to read the CA secret. *)
Theorem approved_object_is_signed_next r1 r2 request w1 w2 name obj :
  EvUpdateApproval name obj ∈ issued w1 (Reconcile r1 request w1).2 →
  hasType CertificateDenied (Conditions (Status obj)) = false →
  client_Get r2 (Key request) = Ok obj →
  signable r2 request obj
  ∧ ∃ rest,
      issued w2 (Reconcile r2 request w2).2
      = EvGet (Key request) :: EvGetSecret caSecretKey :: rest
      ∧ ∀ n o, EvUpdateApproval n o ∉ rest.
Proof.
  intros Hin Hdenied Hget2.
  destruct (Reconcile r1 request w1) as [res1 w1'] eqn:Hrun1.
  apply Reconcile_Pass in Hrun1 as (csr' & evs & h' & -> & HP).
  cbn [snd] in Hin. erewrite issued_app in Hin by done.
  assert (Hs : signable r2 request obj).
  { destruct HP; explicit_events; split_elem_of Hin; simplify_eq.
    all: split_and!; try done.
    all: rewrite isCertificateRequestApproved_spec, Hdenied;
      unfold appendCondition; cbn [Status Conditions];
      rewrite hasType_app; cbn; by rewrite orb_true_r. }
  split; [done|]. destruct Hs as (? & ? & ? & ?).
  destruct (Reconcile r2 request w2) as [res2 w2'] eqn:Hrun2.
  destruct (Reconcile_signing r2 request w2 res2 w2' obj) as (rest & Ht & Hrest);
    try done.
  cbn [snd]. rewrite (issued_app _ _ _ Ht). exists rest. split; [done|].
  intros n o Hino. rewrite Forall_forall in Hrest. by apply Hrest in Hino.
Qed.

(** X24: a recorded failure is not final: the object a pass sends in a
    status update, if it carries no certificate and is what the next
    pass fetches, passes the gates towards signing again, and the next
    pass reads the CA secret anew. *)
Theorem recorded_failure_is_retried r1 r2 request w1 w2 obj :
  EvStatusUpdate obj ∈ issued w1 (Reconcile r1 request w1).2 →
  Certificate (Status obj) = [] →
  client_Get r2 (Key request) = Ok obj →
  signable r2 request obj
  ∧ ∃ rest,
      issued w2 (Reconcile r2 request w2).2
      = EvGet (Key request) :: EvGetSecret caSecretKey :: rest.
Proof.
  intros Hin Hcert Hget2.
  destruct (Reconcile r1 request w1) as [res1 w1'] eqn:Hrun1.
  apply Reconcile_Pass in Hrun1 as (csr' & evs & h' & -> & HP).
  cbn [snd] in Hin. erewrite issued_app in Hin by done.
  assert (Hs : signable r2 request obj).
  { destruct HP; explicit_events; split_elem_of Hin; simplify_eq.
    all: try (by eapply signable_appendFailed).
    all: match goal with Hs : signable _ _ _ |- _ =>
           destruct Hs as (_ & Hsigner & _ & Happroved) end.
    all: split_and!; try done.
    all: rewrite isCertificateRequestApproved_spec in *;
      unfold appendCondition, setCertificate in *; cbn [Status Conditions] in *;
      rewrite ?hasType_app; cbn; by rewrite ?orb_false_r. }
  split; [done|]. destruct Hs as (? & ? & ? & ?).
  destruct (Reconcile r2 request w2) as [res2 w2'] eqn:Hrun2.
  destruct (Reconcile_signing r2 request w2 res2 w2' obj) as (rest & Ht & _);
    try done.
  cbn [snd]. rewrite (issued_app _ _ _ Ht). by exists rest.
Qed.
End next_pass.

(** ** Start-up *)

Section startup_facts.
Context {Controller : Type}.
Implicit Types (mgr : Manager Controller).

(** X25: [Add] returns no error exactly when the clientset is built,
    the controller named signer-controller is created for the reconciler
    made of the manager's client and that clientset, and the watch on
    CertificateSigningRequest objects is registered; these are then its
    three calls, in this order. *)
Theorem Add_succeeds_iff mgr :
  (Add Controller mgr).1 = None
  ↔ ∃ clientset c,
      NewForConfig _ mgr = Ok clientset
      ∧ controller_New _ mgr "signer-controller"
          (mkReconcileCSR (GetClient _ mgr) clientset) = Ok c
      ∧ Watch _ mgr c "CertificateSigningRequest" = None
      ∧ (Add Controller mgr).2
        = [EvNewForConfig; EvControllerNew "signer-controller";
           EvWatch "CertificateSigningRequest"].
Proof.
  unfold Add, newReconciler, add. split.
  - destruct (NewForConfig _ mgr) as [clientset|?] eqn:Hcs; [|done].
    destruct (controller_New _ mgr _ _) as [c|?] eqn:Hc; [|done].
    destruct (Watch _ mgr c _) eqn:Hw; [done|].
    intros _. exists clientset, c. by rewrite Hc, Hw.
  - intros (clientset & c & -> & Hc & Hw & _). by rewrite Hc, Hw.
Qed.

(** X26: an error [Add] returns is that of the first step that failed,
    and no later step is made: without clientset no controller is
    created, without controller no watch is registered. *)
Theorem Add_stops_at_first_error mgr err :
  (Add Controller mgr).1 = Some err →
  (NewForConfig _ mgr = Err err ∧ (Add Controller mgr).2 = [EvNewForConfig])
  ∨ (∃ clientset,
       NewForConfig _ mgr = Ok clientset
       ∧ controller_New _ mgr "signer-controller"
           (mkReconcileCSR (GetClient _ mgr) clientset) = Err err
       ∧ (Add Controller mgr).2
         = [EvNewForConfig; EvControllerNew "signer-controller"])
  ∨ (∃ clientset c,
       NewForConfig _ mgr = Ok clientset
       ∧ controller_New _ mgr "signer-controller"
           (mkReconcileCSR (GetClient _ mgr) clientset) = Ok c
       ∧ Watch _ mgr c "CertificateSigningRequest" = Some err
       ∧ (Add Controller mgr).2
         = [EvNewForConfig; EvControllerNew "signer-controller";
            EvWatch "CertificateSigningRequest"]).
Proof.
  unfold Add, newReconciler, add.
  destruct (NewForConfig _ mgr) as [clientset|?] eqn:Hcs; cbn.
  2: { intros [= ->]. by left. }
  destruct (controller_New _ mgr _ _) as [c|?] eqn:Hc; cbn.
  2: { intros [= ->]. right; left. by exists clientset. }
  destruct (Watch _ mgr c _) eqn:Hw; cbn; [|done].
  intros [= ->]. right; right. exists clientset, c. by rewrite Hw.
Qed.
End startup_facts.

(** ** The fault scenarios, run *)

Import Faults.

Lemma approval_ignores_order_witness :
  (∀ c, c ∈ Conditions statusA ↔ c ∈ Conditions statusB)
  ∧ getCertApprovalCondition statusA = getCertApprovalCondition statusB.
Proof.
  assert (Hsame : ∀ c, c ∈ Conditions statusA ↔ c ∈ Conditions statusB).
  { intros c. cbn [statusA statusB Conditions].
    rewrite !elem_of_cons, !elem_of_nil. tauto. }
  split; [exact Hsame|]. exact (approval_ignores_order statusA statusB Hsame).
Defined.

Lemma not_found_is_silent_witness :
  client_Get (serverOf (Err gone) caSecret) (Key req) = Err gone
  ∧ IsNotFound gone = true
  ∧ @Reconcile toyX509 (serverOf (Err gone) caSecret) req wOther
    = (Result0, None,
       mkWorld emptyCSR [EvLog "earlier"; EvGet (Key req)] (failing wOther)).
Proof.
  split; [reflexivity|]. split; [reflexivity|].
  exact (@not_found_is_silent toyX509 (serverOf (Err gone) caSecret) req wOther
           gone eq_refl eq_refl).
Defined.

Lemma fetch_error_is_returned_witness :
  client_Get (serverOf (Err unavailable) caSecret) (Key req) = Err unavailable
  ∧ IsNotFound unavailable = false
  ∧ @Reconcile toyX509 (serverOf (Err unavailable) caSecret) req wOther
    = (Result0, Some unavailable,
       mkWorld emptyCSR
         [EvLog "earlier"; EvGet (Key req); EvLog "connection refused"]
         (failing wOther)).
Proof.
  split; [reflexivity|]. split; [reflexivity|].
  exact (@fetch_error_is_returned toyX509 (serverOf (Err unavailable) caSecret)
           req wOther unavailable eq_refl eq_refl).
Defined.

Lemma unapproved_request_is_approved_witness :
  (client_Get (server csrNew) (Key req) = Ok csrNew
   ∧ SignerName (Spec csrNew) = signerName
   ∧ Certificate (Status csrNew) = []
   ∧ isCertificateRequestApproved csrNew = false)
  ∧ ∃ w' obj,
      @Reconcile toyX509 (server csrNew) req w0
      = (Result0, (clientset_UpdateApproval (server csrNew) (Name (Key req)) obj).2, w')
      ∧ Conditions (Status obj) = (Conditions (Status csrNew) ++ [approvedCondition])%list
      ∧ Certificate (Status obj) = []
      ∧ Spec obj = Spec csrNew
      ∧ csrObj w' = (clientset_UpdateApproval (server csrNew) (Name (Key req)) obj).1
      ∧ sent (issued w0 w') = [obj]
      ∧ (∀ o, EvStatusUpdate o ∉ issued w0 w')
      ∧ failing w' = failing w0.
Proof.
  split; [by split_and!|].
  exact (@unapproved_request_is_approved toyX509 (server csrNew) req w0 csrNew
           eq_refl eq_refl eq_refl eq_refl).
Defined.

Lemma corrupt_ca_certificate_degrades_witness :
  (signable rNoCert req csrApproved
   ∧ client_GetSecret rNoCert caSecretKey = Ok secretNoCert
   ∧ @decodeCertificateRequest toyX509 (Request (Spec csrApproved)) = Ok [x52]
   ∧ @decodeCertificate toyX509 (index (Data secretNoCert) "tls.crt") = Err malformed)
  ∧ @Reconcile toyX509 rNoCert req w0
    = (Result0, None,
       mkWorld corruptCertSent
         (EvGet (Key req) :: EvGetSecret caSecretKey
          :: EvDecodeCertificateRequest [x52] :: EvDecodeCertificate []
          :: failureEvents rNoCert "CorruptCACert" corruptCertMessage corruptCertSent)
         (<[CertificateSigner := ("CorruptCACert", corruptCertMessage)]> (failing w0)))
  ∧ Conditions (Status corruptCertSent)
    = [mkCondition "Approved" "True" "ByAdmin" EmptyString;
       mkCondition "Failed" "True" "CorruptCACert"
         "Unable to decode CA certificate for network.openshift.io/signer: malformed PEM"]
  ∧ Certificate (Status corruptCertSent) = [].
Proof.
  assert (Hs : signable rNoCert req csrApproved) by (by split_and!).
  split; [by split_and!|].
  exact (@corrupt_ca_certificate_degrades toyX509 rNoCert req w0 csrApproved
           secretNoCert [x52] malformed Hs eq_refl eq_refl eq_refl).
Defined.

Lemma corrupt_ca_key_degrades_witness :
  (signable rNoKey req csrApproved
   ∧ client_GetSecret rNoKey caSecretKey = Ok secretNoKey
   ∧ @decodeCertificateRequest toyX509 (Request (Spec csrApproved)) = Ok [x52]
   ∧ @decodeCertificate toyX509 (index (Data secretNoKey) "tls.crt") = Ok [x43; x41]
   ∧ @decodePrivateKey toyX509 (index (Data secretNoKey) "tls.key") = Err malformed)
  ∧ @Reconcile toyX509 rNoKey req w0
    = (Result0, None,
       mkWorld corruptKeySent
         (EvGet (Key req) :: EvGetSecret caSecretKey
          :: EvDecodeCertificateRequest [x52] :: EvDecodeCertificate [x43; x41]
          :: EvDecodePrivateKey []
          :: failureEvents rNoKey "CorruptCAKey" corruptKeyMessage corruptKeySent)
         (<[CertificateSigner := ("CorruptCAKey", corruptKeyMessage)]> (failing w0)))
  ∧ Conditions (Status corruptKeySent)
    = [mkCondition "Approved" "True" "ByAdmin" EmptyString;
       mkCondition "Failed" "True" "CorruptCAKey"
         "Unable to decode CA private key for network.openshift.io/signer: malformed PEM"]
  ∧ Certificate (Status corruptKeySent) = [].
Proof.
  assert (Hs : signable rNoKey req csrApproved) by (by split_and!).
  split; [by split_and!|].
  exact (@corrupt_ca_key_degrades toyX509 rNoKey req w0 csrApproved
           secretNoKey [x52] [x43; x41] malformed Hs eq_refl eq_refl eq_refl eq_refl).
Defined.

Lemma signing_failure_degrades_witness :
  (signable (server csrApproved) req csrApproved
   ∧ client_GetSecret (server csrApproved) caSecretKey = Ok caSecret
   ∧ @decodeCertificateRequest toyNoSign (Request (Spec csrApproved)) = Ok [x52]
   ∧ @decodeCertificate toyNoSign (index (Data caSecret) "tls.crt") = Ok [x43; x41]
   ∧ @decodePrivateKey toyNoSign (index (Data caSecret) "tls.key") = Ok [x4b]
   ∧ @signCSR toyNoSign [x52] [x52] [x43; x41] [x4b] = Err badKey)
  ∧ @Reconcile toyNoSign (server csrApproved) req w0
    = (Result0, None,
       mkWorld signingSent
         (EvGet (Key req) :: EvGetSecret caSecretKey
          :: EvDecodeCertificateRequest [x52] :: EvDecodeCertificate [x43; x41]
          :: EvDecodePrivateKey [x4b] :: EvSignCSR
          :: failureEvents (server csrApproved) "SigningFailure" signingMessage
               signingSent)
         (<[CertificateSigner := ("SigningFailure", signingMessage)]> (failing w0)))
  ∧ Conditions (Status signingSent)
    = [mkCondition "Approved" "True" "ByAdmin" EmptyString;
       mkCondition "Failed" "True" "SigningFailure"
         "Unable to sign certificate for peer-1 and signer network.openshift.io/signer: incompatible key"]
  ∧ Certificate (Status signingSent) = [].
Proof.
  assert (Hs : signable (server csrApproved) req csrApproved) by (by split_and!).
  split; [by split_and!|].
  exact (@signing_failure_degrades toyNoSign (server csrApproved) req w0 csrApproved
           caSecret [x52] [x43; x41] [x4b] badKey
           Hs eq_refl eq_refl eq_refl eq_refl eq_refl).
Defined.

Lemma encode_failure_degrades_witness :
  (signable (server csrApproved) req csrApproved
   ∧ client_GetSecret (server csrApproved) caSecretKey = Ok caSecret
   ∧ @decodeCertificateRequest toyNoEncode (Request (Spec csrApproved)) = Ok [x52]
   ∧ @decodeCertificate toyNoEncode (index (Data caSecret) "tls.crt") = Ok [x43; x41]
   ∧ @decodePrivateKey toyNoEncode (index (Data caSecret) "tls.key") = Ok [x4b]
   ∧ @signCSR toyNoEncode [x52] [x52] [x43; x41] [x4b] = Ok [x53]
   ∧ @EncodeCertificates toyNoEncode [x53] = ([x3f], Some badDER))
  ∧ @Reconcile toyNoEncode (server csrApproved) req w0
    = (Result0, None,
       mkWorld encodeSent
         (EvGet (Key req) :: EvGetSecret caSecretKey
          :: EvDecodeCertificateRequest [x52] :: EvDecodeCertificate [x43; x41]
          :: EvDecodePrivateKey [x4b] :: EvSignCSR :: EvEncodeCertificates
          :: failureEvents (server csrApproved) "EncodeFailure" encodeMessage
               encodeSent)
         (<[CertificateSigner := ("EncodeFailure", encodeMessage)]> (failing w0)))
  ∧ Certificate (Status encodeSent) = [x3f].
Proof.
  assert (Hs : signable (server csrApproved) req csrApproved) by (by split_and!).
  split; [by split_and!|].
  exact (@encode_failure_degrades toyNoEncode (server csrApproved) req w0 csrApproved
           caSecret [x52] [x43; x41] [x4b] [x53] [x3f] badDER
           Hs eq_refl eq_refl eq_refl eq_refl eq_refl eq_refl).
Defined.

Lemma certificate_update_error_is_returned_witness :
  (signable (serverNoUpdate csrApproved) req csrApproved
   ∧ client_GetSecret (serverNoUpdate csrApproved) caSecretKey = Ok caSecret
   ∧ @decodeCertificateRequest toyX509 (Request (Spec csrApproved)) = Ok [x52]
   ∧ @decodeCertificate toyX509 (index (Data caSecret) "tls.crt") = Ok [x43; x41]
   ∧ @decodePrivateKey toyX509 (index (Data caSecret) "tls.key") = Ok [x4b]
   ∧ @signCSR toyX509 [x52] [x52] [x43; x41] [x4b] = Ok signedPEM
   ∧ @EncodeCertificates toyX509 signedPEM = (signedPEM, None)
   ∧ client_Status_Update (serverNoUpdate csrApproved)
       (setCertificate signedPEM csrApproved) = Some conflict)
  ∧ ∃ w',
      @Reconcile toyX509 (serverNoUpdate csrApproved) req wDegraded
      = (Result0, Some conflict, w')
      ∧ csrObj w' = setCertificate signedPEM csrApproved
      ∧ Conditions (Status (csrObj w')) = Conditions (Status csrApproved)
      ∧ trace w'
        = [EvGet (Key req); EvGetSecret caSecretKey;
           EvDecodeCertificateRequest [x52];
           EvDecodeCertificate [x43; x41];
           EvDecodePrivateKey [x4b];
           EvSignCSR; EvEncodeCertificates;
           EvStatusUpdate (setCertificate signedPEM csrApproved);
           EvLog ("Unable to update signed certificate for peer-1 and signer "
                  +:+ "network.openshift.io/signer: conflict")]
      ∧ last (issued wDegraded w')
        = Some (EvLog ("Unable to update signed certificate for peer-1 and signer "
                       +:+ "network.openshift.io/signer: conflict"))
      ∧ sent (issued wDegraded w') = [setCertificate signedPEM csrApproved]
      ∧ (∀ e, e ∈ issued wDegraded w' → isWrite e = true
              → e = EvStatusUpdate (csrObj w'))
      ∧ failing w' = failing wDegraded.
Proof.
  assert (Hs : signable (serverNoUpdate csrApproved) req csrApproved)
    by (by split_and!).
  split; [by split_and!|].
  exact (@certificate_update_error_is_returned toyX509 (serverNoUpdate csrApproved)
           req wDegraded csrApproved caSecret [x52] [x43; x41] [x4b]
           signedPEM signedPEM conflict
           Hs eq_refl eq_refl eq_refl eq_refl eq_refl eq_refl eq_refl).
Defined.

Lemma missing_ca_entry_is_corrupt_witness :
  (signable rNoCert req csrApproved
   ∧ client_GetSecret rNoCert caSecretKey = Ok secretNoCert
   ∧ Data secretNoCert !! "tls.crt" = None
   ∧ @decodeCertificateRequest toyX509 (Request (Spec csrApproved)) = Ok [x52]
   ∧ @decodeCertificate toyX509 [] = Err malformed)
  ∧ ∃ w' message,
      @Reconcile toyX509 rNoCert req w0 = (Result0, None, w')
      ∧ EvDecodeCertificate [] ∈ issued w0 w'
      ∧ csrObj w'
        = appendCondition (failedCondition "CorruptCACert" message) csrApproved
      ∧ failing w' !! CertificateSigner = Some ("CorruptCACert", message)
      ∧ (∀ b, EvDecodePrivateKey b ∉ issued w0 w')
      ∧ EvSignCSR ∉ issued w0 w'.
Proof.
  assert (Hs : signable rNoCert req csrApproved) by (by split_and!).
  assert (Hnone : Data secretNoCert !! "tls.crt" = None) by reflexivity.
  split; [by split_and!|].
  exact (@missing_ca_entry_is_corrupt toyX509 rNoCert req w0 csrApproved
           secretNoCert [x52] malformed Hs eq_refl Hnone eq_refl eq_refl).
Defined.

Lemma other_components_untouched_witness :
  "PodDeployment" ≠ CertificateSigner
  ∧ Forall (healthCallOn CertificateSigner)
      (issued wOther
         (@Reconcile toyX509 (serverNoCANoUpdate csrApproved) req wOther).2)
  ∧ failing (@Reconcile toyX509 (serverNoCANoUpdate csrApproved) req wOther).2
      !! "PodDeployment"
    = failing wOther !! "PodDeployment".
Proof.
  assert (Hne : "PodDeployment" ≠ CertificateSigner) by discriminate.
  split; [exact Hne|].
  exact (@other_components_untouched toyX509 (serverNoCANoUpdate csrApproved) req
           wOther "PodDeployment" Hne).
Defined.

Lemma returned_error_is_an_api_answer_witness :
  @Reconcile toyX509 (serverNoCA csrApproved) req w0
  = (Result0, Some unavailable, caFailureRecorded)
  ∧ (Result0, Some unavailable).1 = Result0
  ∧ ∀ err, (Result0, Some unavailable).2 = Some err →
      client_Get (serverNoCA csrApproved) (Key req) = Err err
      ∨ client_GetSecret (serverNoCA csrApproved) caSecretKey = Err err
      ∨ (∃ obj, EvUpdateApproval (Name (Key req)) obj ∈ issued w0 caFailureRecorded
                ∧ (clientset_UpdateApproval (serverNoCA csrApproved) (Name (Key req))
                     obj).2 = Some err)
      ∨ (∃ obj, EvStatusUpdate obj ∈ issued w0 caFailureRecorded
                ∧ client_Status_Update (serverNoCA csrApproved) obj = Some err).
Proof.
  split; [reflexivity|].
  exact (@returned_error_is_an_api_answer toyX509 (serverNoCA csrApproved) req w0
           (Result0, Some unavailable) caFailureRecorded eq_refl).
Defined.

Lemma sent_object_keeps_spec_witness :
  @Reconcile toyX509 (serverNoCA csrApproved) req w0
  = (Result0, Some unavailable, caFailureRecorded)
  ∧ caFailureSent ∈ sent (issued w0 caFailureRecorded)
  ∧ ∃ csr, client_Get (serverNoCA csrApproved) (Key req) = Ok csr
      ∧ ObjectName caFailureSent = ObjectName csr
      ∧ Spec caFailureSent = Spec csr.
Proof.
  assert (Hin : caFailureSent ∈ sent (issued w0 caFailureRecorded))
    by (vm_compute; apply elem_of_cons; by left).
  split; [reflexivity|]. split; [exact Hin|].
  exact (@sent_object_keeps_spec toyX509 (serverNoCA csrApproved) req w0
           (Result0, Some unavailable) caFailureRecorded caFailureSent
           eq_refl Hin).
Defined.

Lemma signing_needs_approval_witness :
  @Reconcile toyX509 (serverNoCA csrApproved) req w0
  = (Result0, Some unavailable, caFailureRecorded)
  ∧ EvGetSecret caSecretKey ∈ issued w0 caFailureRecorded
  ∧ isSigningStep (EvGetSecret caSecretKey) = true
  ∧ ∃ csr, signable (serverNoCA csrApproved) req csr.
Proof.
  assert (Hin : EvGetSecret caSecretKey ∈ issued w0 caFailureRecorded)
    by (vm_compute; apply elem_of_cons; right; apply elem_of_cons; by left).
  split; [reflexivity|]. split; [exact Hin|]. split; [reflexivity|].
  exact (@signing_needs_approval toyX509 (serverNoCA csrApproved) req w0
           (Result0, Some unavailable) caFailureRecorded (EvGetSecret caSecretKey)
           eq_refl Hin eq_refl).
Defined.

Lemma denied_request_is_not_signed_witness :
  client_Get (server csrDenied) (Key req) = Ok csrDenied
  ∧ hasType CertificateDenied (Conditions (Status csrDenied)) = true
  ∧ Forall (λ e, isSigningStep e = false)
           (issued w0 (@Reconcile toyX509 (server csrDenied) req w0).2)
  ∧ Forall (λ obj, Certificate (Status obj) = Certificate (Status csrDenied))
           (sent (issued w0 (@Reconcile toyX509 (server csrDenied) req w0).2))
  ∧ failing (@Reconcile toyX509 (server csrDenied) req w0).2 = failing w0.
Proof.
  split; [reflexivity|]. split; [reflexivity|].
  exact (@denied_request_is_not_signed toyX509 (server csrDenied) req w0 csrDenied
           eq_refl eq_refl).
Defined.

Lemma not_degraded_only_after_issuance_witness :
  @Reconcile toyX509 (server csrApproved) req wDegraded
  = (Result0, None, issuedWorld)
  ∧ EvSetNotDegraded CertificateSigner ∈ issued wDegraded issuedWorld
  ∧ CertificateSigner = CertificateSigner
  ∧ (Result0, @None error) = (Result0, None)
  ∧ last (issued wDegraded issuedWorld) = Some (EvSetNotDegraded CertificateSigner)
  ∧ EvStatusUpdate (csrObj issuedWorld) ∈ issued wDegraded issuedWorld
  ∧ client_Status_Update (server csrApproved) (csrObj issuedWorld) = None
  ∧ failing issuedWorld !! CertificateSigner = None
  ∧ ∃ csr signedCert,
      signable (server csrApproved) req csr
      ∧ Conditions (Status (csrObj issuedWorld)) = Conditions (Status csr)
      ∧ Certificate (Status (csrObj issuedWorld))
        = (@EncodeCertificates toyX509 signedCert).1.
Proof.
  assert (Hin : EvSetNotDegraded CertificateSigner ∈ issued wDegraded issuedWorld)
    by (vm_compute; do 9 (apply elem_of_cons; right); apply elem_of_cons; by left).
  split; [reflexivity|]. split; [exact Hin|].
  exact (@not_degraded_only_after_issuance toyX509 (server csrApproved) req
           wDegraded (Result0, None) issuedWorld CertificateSigner eq_refl Hin).
Defined.

Lemma sent_certificate_is_the_signed_one_witness :
  @Reconcile toyX509 (server csrApproved) req wDegraded
  = (Result0, None, issuedWorld)
  ∧ setCertificate signedPEM csrApproved ∈ sent (issued wDegraded issuedWorld)
  ∧ Certificate (Status (setCertificate signedPEM csrApproved)) ≠ []
  ∧ ∃ csr caSecret certReq caCert caKey signedCert,
      signable (server csrApproved) req csr
      ∧ client_GetSecret (server csrApproved) caSecretKey = Ok caSecret
      ∧ @decodeCertificateRequest toyX509 (Request (Spec csr)) = Ok certReq
      ∧ @decodeCertificate toyX509 (index (Data caSecret) "tls.crt") = Ok caCert
      ∧ @decodePrivateKey toyX509 (index (Data caSecret) "tls.key") = Ok caKey
      ∧ @signCSR toyX509 (@newCertificateTemplate toyX509 certReq)
          (@PublicKey toyX509 certReq) caCert caKey = Ok signedCert
      ∧ Certificate (Status (setCertificate signedPEM csrApproved))
        = (@EncodeCertificates toyX509 signedCert).1.
Proof.
  assert (Hin : setCertificate signedPEM csrApproved
                ∈ sent (issued wDegraded issuedWorld))
    by (vm_compute; apply elem_of_cons; by left).
  assert (Hne : Certificate (Status (setCertificate signedPEM csrApproved)) ≠ [])
    by discriminate.
  split; [reflexivity|]. split; [exact Hin|]. split; [exact Hne|].
  exact (@sent_certificate_is_the_signed_one toyX509 (server csrApproved) req
           wDegraded (Result0, None) issuedWorld _ eq_refl Hin Hne).
Defined.

Lemma approved_object_is_signed_next_witness :
  EvUpdateApproval "peer-1" approvalSent
    ∈ issued w0 (@Reconcile toyX509 (server csrNew) req w0).2
  ∧ hasType CertificateDenied (Conditions (Status approvalSent)) = false
  ∧ client_Get (server approvalSent) (Key req) = Ok approvalSent
  ∧ signable (server approvalSent) req approvalSent
  ∧ ∃ rest,
      issued w0 (@Reconcile toyX509 (server approvalSent) req w0).2
      = EvGet (Key req) :: EvGetSecret caSecretKey :: rest
      ∧ ∀ n o, EvUpdateApproval n o ∉ rest.
Proof.
  assert (Hin : EvUpdateApproval "peer-1" approvalSent
                ∈ issued w0 (@Reconcile toyX509 (server csrNew) req w0).2)
    by (vm_compute; apply elem_of_cons; right; apply elem_of_cons; by left).
  split; [exact Hin|]. split; [reflexivity|]. split; [reflexivity|].
  exact (@approved_object_is_signed_next toyX509 (server csrNew)
           (server approvalSent) req w0 w0 "peer-1" approvalSent
           Hin eq_refl eq_refl).
Defined.

Lemma recorded_failure_is_retried_witness :
  EvStatusUpdate decodeFailureSent
    ∈ issued w0 (@Reconcile toyX509 (server csrBadPEM) req w0).2
  ∧ Certificate (Status decodeFailureSent) = []
  ∧ client_Get (server decodeFailureSent) (Key req) = Ok decodeFailureSent
  ∧ signable (server decodeFailureSent) req decodeFailureSent
  ∧ ∃ rest,
      issued w0 (@Reconcile toyX509 (server decodeFailureSent) req w0).2
      = EvGet (Key req) :: EvGetSecret caSecretKey :: rest.
Proof.
  assert (Hin : EvStatusUpdate decodeFailureSent
                ∈ issued w0 (@Reconcile toyX509 (server csrBadPEM) req w0).2)
    by (vm_compute; do 3 (apply elem_of_cons; right); apply elem_of_cons; by left).
  split; [exact Hin|]. split; [reflexivity|]. split; [reflexivity|].
  exact (@recorded_failure_is_retried toyX509 (server csrBadPEM)
           (server decodeFailureSent) req w0 w0 decodeFailureSent
           Hin eq_refl eq_refl).
Defined.

Lemma Add_stops_at_first_error_witness :
  (Add unit mgrNoClientset).1 = Some unavailable
  ∧ ((NewForConfig _ mgrNoClientset = Err unavailable
      ∧ (Add unit mgrNoClientset).2 = [EvNewForConfig])
     ∨ (∃ clientset,
          NewForConfig _ mgrNoClientset = Ok clientset
          ∧ controller_New _ mgrNoClientset "signer-controller"
              (mkReconcileCSR (GetClient _ mgrNoClientset) clientset)
            = Err unavailable
          ∧ (Add unit mgrNoClientset).2
            = [EvNewForConfig; EvControllerNew "signer-controller"])
     ∨ (∃ clientset c,
          NewForConfig _ mgrNoClientset = Ok clientset
          ∧ controller_New _ mgrNoClientset "signer-controller"
              (mkReconcileCSR (GetClient _ mgrNoClientset) clientset) = Ok c
          ∧ Watch _ mgrNoClientset c "CertificateSigningRequest" = Some unavailable
          ∧ (Add unit mgrNoClientset).2
            = [EvNewForConfig; EvControllerNew "signer-controller";
               EvWatch "CertificateSigningRequest"])).
Proof.
  split; [reflexivity|].
  exact (@Add_stops_at_first_error unit mgrNoClientset unavailable eq_refl).
Defined.

Example Add_on_a_working_manager :
  Add unit mgrOk
  = (None, [EvNewForConfig; EvControllerNew "signer-controller";
            EvWatch "CertificateSigningRequest"]).
Proof. reflexivity. Qed.
